(** * pear.py: state reconciliation for PEAR packages and channels

    A shallow embedding of [packaging/language/pear.py] (an Ansible
    module written for Python 2) and the properties of its presence
    queries, its dry-run mode and its classification of command outcomes.

    Python [str] values are [string]s (sequences of 8-bit characters),
    return codes are [Z], keyword arguments handed to [exit_json] and
    [fail_json] are association lists in call order.  The host on which
    commands run is an abstract state threaded through every
    [run_command]; each computation also yields the list of commands it
    issued. *)

From Stdlib Require Import String Ascii List Bool ZArith Lia DecimalString.
Import ListNotations.

Local Open Scope list_scope.
Local Open Scope string_scope.

(** ** Strings as Python 2 uses them here *)

(** [sub in s] *)
Fixpoint contains (sub s : string) : bool :=
  if prefix sub s then true
  else match s with
       | EmptyString => false
       | String _ s' => contains sub s'
       end.

(** [s.split(sep)] for a one-character separator: every occurrence cuts,
    so the result is never empty and [n] separators give [n + 1] pieces. *)
Fixpoint split (sep : ascii) (s : string) : list string :=
  match s with
  | EmptyString => [EmptyString]
  | String c s' =>
      if Ascii.eqb c sep then EmptyString :: split sep s'
      else match split sep s' with
           | piece :: pieces => String c piece :: pieces
           | [] => [String c EmptyString]
           end
  end.

(** [sep.join(pieces)] *)
Fixpoint join (sep : ascii) (pieces : list string) : string :=
  match pieces with
  | [] => ""
  | [piece] => piece
  | piece :: rest => piece ++ String sep (join sep rest)
  end.

Definition LF : ascii := ascii_of_nat 10.

(** The class [\s] of an 8-bit pattern without flags: tab, line feed,
    vertical tab, form feed, carriage return and space. *)
Definition is_space (c : ascii) : bool :=
  let n := nat_of_ascii c in
  ((9 <=? n) && (n <=? 13))%nat || (n =? 32)%nat.

(** [re.split('\s+', s, maxsplit)].  Each maximal run of whitespace is one
    separator; a separator at either end leaves an empty field there.
    [maxsplit = 0] puts no bound on the number of cuts; otherwise, once
    [maxsplit] cuts are made the rest of the string is the last field.
    [budget] is the number of cuts still allowed ([None]: unbounded) and
    [in_run] tells that the previous character belonged to a separator. *)
Fixpoint re_split_from (budget : option nat) (in_run : bool) (s : string)
  : list string :=
  match s with
  | EmptyString => [EmptyString]
  | String c s' =>
      if is_space c && in_run then re_split_from budget true s'
      else if is_space c
              && match budget with Some 0%nat => false | _ => true end
      then EmptyString :: re_split_from (option_map Nat.pred budget) true s'
      else match re_split_from budget false s' with
           | field :: fields => String c field :: fields
           | [] => [String c EmptyString]
           end
  end.

Definition re_split_ws (s : string) (maxsplit : nat) : list string :=
  re_split_from (match maxsplit with 0%nat => None | _ => Some maxsplit end)
                false s.

Fixpoint has_space (s : string) : bool :=
  match s with
  | EmptyString => false
  | String c s' => is_space c || has_space s'
  end.

(** ["%s" % (rc,)] for an integer *)
Definition str_of_int (z : Z) : string :=
  NilZero.string_of_int (Z.to_int z).

(** ** Values, reports and ways a run ends *)

Inductive PyVal : Type :=
| VNone
| VBool (b : bool)
| VStr (s : string).

(** Keyword arguments of one call, in the order they are written. *)
Definition kwargs : Type := list (string * PyVal).

Fixpoint kwarg (key : string) (kw : kwargs) : option PyVal :=
  match kw with
  | [] => None
  | (k, v) :: kw' => if String.eqb k key then Some v else kwarg key kw'
  end.

Definition opt_val (o : option string) : PyVal :=
  match o with
  | None => VNone
  | Some s => VStr s
  end.

(** The only exception the module can raise itself: a local variable read
    before any assignment reached it. *)
Inductive exn : Type :=
| UnboundLocalError (var : string).

(** [exit_json] and [fail_json] print their report and leave the
    interpreter; an uncaught exception ends the run as well. *)
Inductive Stop : Type :=
| ExitJson (kw : kwargs)
| FailJson (kw : kwargs)
| Raised (e : exn).

Inductive Res (A : Type) : Type :=
| Ret (a : A)
| Halt (s : Stop).

Arguments Ret {A} a.
Arguments Halt {A} s.

(** ** Module parameters *)

Inductive State : Type :=
| present
| absent.

Definition state_str (s : State) : string :=
  match s with
  | present => "present"
  | absent => "absent"
  end.

Definition is_present_state (s : State) : bool :=
  match s with present => true | absent => false end.

Definition is_absent_state (s : State) : bool :=
  match s with present => false | absent => true end.

(** [module.params] together with [module.check_mode]; [None] is Python's
    [None], the default of [name], [version] and [channel]. *)
Record Params : Type := mkParams {
  p_state : State;
  p_name : option string;
  p_version : option string;
  p_channel : option string;
  check_mode : bool
}.

(** [if x:] for a value that is [None] or a [str]: the string, when the
    test succeeds. *)
Definition truthy (o : option string) : option string :=
  match o with
  | Some (String c s) => Some (String c s)
  | _ => None
  end.

Definition package_state_map (s : State) : string :=
  match s with
  | present => "install"
  | absent => "uninstall"
  end.

Definition channel_state_map (s : State) : string :=
  match s with
  | present => "channel-discover"
  | absent => "channel-delete"
  end.

Definition _get_full_name (name : string) (version : option string) : string :=
  match version with
  | None => name
  | Some version => name ++ "-" ++ version
  end.

(** ** The two parsing loops

    [vars] holds the three variables the unpacking assigns: all unbound
    ([None]) until a first line unpacks, afterwards the fields of the last
    line that did.  A failed unpacking assigns nothing, and the test that
    follows the [try] reads the variables whatever happened. *)

Definition unpack3 (fields : list string) (vars : option (string * string * string))
  : option (string * string * string) :=
  match fields with
  | [a; b; c] => Some (a, b, c)
  | _ => vars
  end.

Definition version_matches (version : option string) (pkg_version : string) : bool :=
  match version with
  | None => true
  | Some v => String.eqb v pkg_version
  end.

Fixpoint for_pkg (name : string) (version : option string)
  (vars : option (string * string * string)) (installed_pkgs : list string)
  : exn + bool :=
  match installed_pkgs with
  | [] => inr false
  | pkg :: rest =>
      match unpack3 (re_split_ws pkg 0) vars with
      | None => inl (UnboundLocalError "pkg_name")
      | Some (pkg_name, pkg_version, pkg_status) =>
          if String.eqb pkg_name name && version_matches version pkg_version
          then inr true
          else for_pkg name version (Some (pkg_name, pkg_version, pkg_status)) rest
      end
  end.

Fixpoint for_channel (name : string)
  (vars : option (string * string * string)) (installed_channels : list string)
  : exn + bool :=
  match installed_channels with
  | [] => inr false
  | channel :: rest =>
      match unpack3 (re_split_ws channel 2) vars with
      | None => inl (UnboundLocalError "channel_url")
      | Some (channel_url, channel_alias, channel_description) =>
          if String.eqb channel_url name
          then inr true
          else for_channel name
                 (Some (channel_url, channel_alias, channel_description)) rest
      end
  end.

(** ['pear %s %s' % (verb, arg)] *)
Definition pear_cmd (verb arg : string) : string :=
  "pear " ++ verb ++ " " ++ arg.

(** The message [_fail] builds: a part is added for [out] and for [err]
    when the string is not empty, and for [rc] when it is given and is
    not zero. *)
Definition _fail_msg (out err : string) (rc : option Z) : string :=
  let msg := "" in
  let msg := if String.eqb out "" then msg else msg ++ "stdout: " ++ out in
  let msg := if String.eqb err "" then msg
             else msg ++ String LF ":stderr: " ++ err in
  match rc with
  | None => msg
  | Some rc => if (rc =? 0)%Z then msg
               else msg ++ String LF "rc: " ++ str_of_int rc
  end.

(** ** The module, over an abstract host *)

Section Module.

Variable Host : Type.

(** [module.run_command]: return code, standard output and standard
    error of a command, and the host it leaves. *)
Variable execute : string -> Host -> (Z * string * string) * Host.

(** A computation takes the host and gives its result, the host
    afterwards and the commands it ran, oldest first. *)
Definition M (A : Type) : Type := Host -> Res A * Host * list string.

Definition ret {A} (a : A) : M A := fun h => (Ret a, h, []).

Definition bind {A B} (m : M A) (k : A -> M B) : M B :=
  fun h =>
    match m h with
    | (Ret a, h1, t1) =>
        let '(r, h2, t2) := k a h1 in (r, h2, (t1 ++ t2)%list)
    | (Halt s, h1, t1) => (Halt s, h1, t1)
    end.

Definition halt {A} (s : Stop) : M A := fun h => (Halt s, h, []).

Definition exit_json {A} (kw : kwargs) : M A := halt (ExitJson kw).
Definition fail_json {A} (kw : kwargs) : M A := halt (FailJson kw).
Definition raise {A} (e : exn) : M A := halt (Raised e).

Definition run_command (cmd : string) : M (Z * string * string) :=
  fun h => let '(r, h') := execute cmd h in (Ret r, h', [cmd]).

Definition lift {A} (r : exn + A) : M A :=
  match r with
  | inl e => raise e
  | inr a => ret a
  end.

Notation "x <- m ;; k" := (bind m (fun x => k))
  (at level 61, m at next level, right associativity).
Notation "' pat <- m ;; k" := (bind m (fun x => let 'pat := x in k))
  (at level 61, pat pattern, m at next level, right associativity).
Notation "m ;; k" := (bind m (fun _ => k))
  (at level 61, right associativity).

Definition _is_package_present (name : string) (version : option string)
  : M bool :=
  '(rc, out_pear, err_pear) <- run_command "pear list" ;;
  (if negb (rc =? 0)%Z then fail_json [] else ret tt) ;;
  let installed_pkgs := skipn 3 (split LF out_pear) in
  lift (for_pkg name version None installed_pkgs).

Definition _is_channel_present (name : string) : M bool :=
  '(rc, out_pear, err_pear) <- run_command "pear list-channels" ;;
  (if negb (rc =? 0)%Z then fail_json [] else ret tt) ;;
  let installed_channels := skipn 3 (split LF out_pear) in
  lift (for_channel name None installed_channels).

Definition _fail {A} (cmd out err : string) (rc : option Z) : M A :=
  fail_json [("cmd", VStr cmd); ("msg", VStr (_fail_msg out err rc))].

Definition main (module : Params) : M unit :=
  let state := p_state module in
  let name := p_name module in
  let version := p_version module in
  let channel := p_channel module in
  let err := "" in
  let out := "" in
  cmd <- match truthy name, truthy channel with
         | Some n, _ =>
             ret (pear_cmd (package_state_map state)
                           (_get_full_name n version))
         | None, Some c =>
             ret (pear_cmd (channel_state_map state) c)
         | None, None =>
             fail_json [("msg", VStr "not enough parameters")]
         end ;;
  (if check_mode module then
     match truthy name, truthy channel with
     | Some n, _ =>
         is_present <- _is_package_present n version ;;
         let changed := (is_present_state state && negb is_present)
                        || (is_absent_state state && is_present) in
         exit_json [("changed", VBool changed);
                    ("stdout", VStr out); ("stderr", VStr err)]
     | None, Some c =>
         is_present <- _is_channel_present c ;;
         let changed := (is_present_state state && negb is_present)
                        || (is_absent_state state && is_present) in
         exit_json [("changed", VBool changed);
                    ("stdout", VStr out); ("stderr", VStr err)]
     | None, None => ret tt
     end
   else ret tt) ;;
  match truthy name with
  | Some n =>
      present <- _is_package_present n version ;;
      if (is_present_state state && present)
         || (is_absent_state state && negb present)
      then exit_json [("changed", VBool false);
                      ("name", opt_val name); ("version", opt_val version)]
      else ret tt
  | None => ret tt
  end ;;
  '(rc, out_pear, err_pear) <- run_command cmd ;;
  let out := out ++ out_pear in
  let err := err ++ err_pear in
  changed <- match truthy name, truthy channel with
             | Some _, _ =>
                 (if (rc =? 0)%Z && is_absent_state state
                     && contains "not installed" out_pear
                  then ret tt
                  else if (rc =? 1)%Z && is_present_state state
                          && contains "already installed" out_pear
                  then ret tt
                  else if negb (rc =? 0)%Z
                  then _fail cmd out err None
                  else ret tt) ;;
                 if is_absent_state state
                 then ret (Some (contains "uninstall ok" out_pear))
                 else ret (Some (contains "install ok" out_pear))
             | None, Some _ =>
                 if (rc =? 1)%Z && is_present_state state
                    && contains "is already initialized" out_pear
                 then ret (Some false)
                 else if (rc =? 1)%Z && is_absent_state state
                         && contains "does not exist" out_pear
                 then ret (Some false)
                 else if (rc =? 0)%Z && is_present_state state
                         && contains "succeeded" out_pear
                 then ret (Some true)
                 else if (rc =? 0)%Z && is_absent_state state
                         && contains "deleted" out_pear
                 then ret (Some true)
                 else if (rc =? 1)%Z
                 then _fail cmd out err (Some rc)
                 else ret None
             | None, None => ret None
             end ;;
  match changed with
  | None => raise (UnboundLocalError "changed")
  | Some changed =>
      exit_json [("changed", VBool changed); ("cmd", VStr cmd);
                 ("name", opt_val name); ("version", opt_val version);
                 ("state", VStr (state_str state));
                 ("channel", opt_val channel);
                 ("stdout", VStr out); ("stderr", VStr err)]
  end.

End Module.

Arguments ret {Host A} a _.
Arguments halt {Host A} s _.
Arguments exit_json {Host A} kw _.
Arguments fail_json {Host A} kw _.
Arguments raise {Host A} e _.
Arguments lift {Host A} r _.
Arguments bind {Host A B} m k _.
Arguments run_command {Host} execute cmd _.
Arguments _is_package_present {Host} execute name version _.
Arguments _is_channel_present {Host} execute name _.
Arguments _fail {Host A} cmd out err rc _.
Arguments main {Host} execute module _.

(** ** Vocabulary of the properties *)

Definition desired (p : Params) : bool := is_present_state (p_state p).

(** The command [main] builds for its target, if it has one. *)
Definition action_cmd (p : Params) : option string :=
  match truthy (p_name p), truthy (p_channel p) with
  | Some n, _ =>
      Some (pear_cmd (package_state_map (p_state p))
                     (_get_full_name n (p_version p)))
  | None, Some c => Some (pear_cmd (channel_state_map (p_state p)) c)
  | None, None => None
  end.

(** The listing command that belongs to the target. *)
Definition query_trace (p : Params) : list string :=
  match truthy (p_name p), truthy (p_channel p) with
  | Some _, _ => ["pear list"]
  | None, Some _ => ["pear list-channels"]
  | None, None => []
  end.

Definition returned {Host A} (x : Res A * Host * list string) : option A :=
  match x with
  | (Ret a, _, _) => Some a
  | _ => None
  end.

Definition outcome {Host A} (x : Res A * Host * list string) : Res A :=
  fst (fst x).

Definition trace {Host A} (x : Res A * Host * list string) : list string :=
  snd x.

(** What the presence query of the target answers on host [h], when it
    answers. *)
Definition current_presence {Host}
  (execute : string -> Host -> (Z * string * string) * Host)
  (p : Params) (h : Host) : option bool :=
  match truthy (p_name p), truthy (p_channel p) with
  | Some n, _ => returned (_is_package_present execute n (p_version p) h)
  | None, Some c => returned (_is_channel_present execute c h)
  | None, None => None
  end.

(** A line of [pear list] that lists [name] (in [version], if given). *)
Definition pkg_line_matches (name : string) (version : option string)
  (line : string) : bool :=
  match re_split_ws line 0 with
  | [pkg_name; pkg_version; _] =>
      String.eqb pkg_name name && version_matches version pkg_version
  | _ => false
  end.

Definition channel_line_matches (name : string) (line : string) : bool :=
  match re_split_ws line 2 with
  | [channel_url; _; _] => String.eqb channel_url name
  | _ => false
  end.

(** Some line after the three header lines lists the package. *)
Definition listed (name : string) (version : option string) (out : string)
  : bool :=
  existsb (pkg_line_matches name version) (skipn 3 (split LF out)).

Definition channel_listed (name : string) (out : string) : bool :=
  existsb (channel_line_matches name) (skipn 3 (split LF out)).

Definition unpacks (fields : list string) : bool :=
  match fields with
  | [_; _; _] => true
  | _ => false
  end.

(** The runs that begin with the presence query of their target: every
    run for a package, and the dry run for a channel. *)
Definition queries_first (p : Params) : bool :=
  match truthy (p_name p) with
  | Some _ => true
  | None => check_mode p
  end.

(** What a query hands back, given the return code of the listing and
    the result of the loop. *)
Definition query_answer (rc : Z) (r : exn + bool) : Res bool :=
  if negb (rc =? 0)%Z then Halt (FailJson [])
  else match r with
       | inl e => Halt (Raised e)
       | inr b => Ret b
       end.

(** Dry run: the query, then the predicted report. *)
Definition predicted (p : Params) (is_present : bool) : kwargs :=
  [("changed", VBool (xorb (desired p) is_present));
   ("stdout", VStr ""); ("stderr", VStr "")].

(** Real run: the report of the last line of [main]. *)
Definition final_report (p : Params) (cmd : string) (changed : bool)
  (out err : string) : kwargs :=
  [("changed", VBool changed); ("cmd", VStr cmd);
   ("name", opt_val (p_name p)); ("version", opt_val (p_version p));
   ("state", VStr (state_str (p_state p)));
   ("channel", opt_val (p_channel p));
   ("stdout", VStr out); ("stderr", VStr err)].

Definition failure_report (cmd out err : string) (rc : option Z) : kwargs :=
  [("cmd", VStr cmd); ("msg", VStr (_fail_msg out err rc))].

(** How a package action ends, given what its command returned. *)
Definition package_ending (p : Params) (cmd : string)
  (rc : Z) (out err : string) : Stop :=
  if negb (rc =? 0)%Z
     && negb ((rc =? 1)%Z && desired p && contains "already installed" out)
  then FailJson (failure_report cmd out err None)
  else ExitJson (final_report p cmd
                   (if desired p then contains "install ok" out
                    else contains "uninstall ok" out) out err).

(** How a channel action ends; [None] stands for the report that reads
    [changed] before anything was assigned to it. *)
Definition channel_changed (p : Params) (rc : Z) (out : string)
  : option (option bool) :=
  if (rc =? 1)%Z && desired p && contains "is already initialized" out
  then Some (Some false)
  else if (rc =? 1)%Z && negb (desired p) && contains "does not exist" out
  then Some (Some false)
  else if (rc =? 0)%Z && desired p && contains "succeeded" out
  then Some (Some true)
  else if (rc =? 0)%Z && negb (desired p) && contains "deleted" out
  then Some (Some true)
  else if (rc =? 1)%Z then None
  else Some None.

Definition channel_ending (p : Params) (cmd : string)
  (rc : Z) (out err : string) : Stop :=
  match channel_changed p rc out with
  | Some (Some changed) => ExitJson (final_report p cmd changed out err)
  | Some None => Raised (UnboundLocalError "changed")
  | None => FailJson (failure_report cmd out err (Some rc))
  end.


(** A package action: the pre-check of a real run found the presence
    different from the desired one (host [h1] afterwards), and the command
    of the target then returned [rc], [out] and [err]. *)
Definition package_action {Host}
  (execute : string -> Host -> (Z * string * string) * Host)
  (p : Params) (h : Host) (n : string)
  (rc : Z) (out err : string) (h1 h2 : Host) : Prop :=
  truthy (p_name p) = Some n /\
  check_mode p = false /\
  _is_package_present execute n (p_version p) h
  = (Ret (negb (desired p)), h1, ["pear list"]) /\
  execute (pear_cmd (package_state_map (p_state p))
                    (_get_full_name n (p_version p))) h1
  = ((rc, out, err), h2).

(** A channel action: a real run for a channel, whose command returned
    [rc], [out] and [err]. *)
Definition channel_action {Host}
  (execute : string -> Host -> (Z * string * string) * Host)
  (p : Params) (h : Host) (c : string)
  (rc : Z) (out err : string) (h2 : Host) : Prop :=
  truthy (p_name p) = None /\
  truthy (p_channel p) = Some c /\
  check_mode p = false /\
  execute (pear_cmd (channel_state_map (p_state p)) c) h = ((rc, out, err), h2).



(** ** Hosts used in examples *)

(** Text made of lines, each ended by a line feed. *)
Fixpoint unlines (ls : list string) : string :=
  match ls with
  | [] => ""
  | l :: ls' => l ++ String LF (unlines ls')
  end.

(** A host that answers each command from a table and never changes. *)
Definition Canned : Type := list (string * (Z * string * string)).

Fixpoint canned_reply (cmd : string) (h : Canned) : Z * string * string :=
  match h with
  | [] => (127%Z, "", "command not found")
  | (c, r) :: h' => if String.eqb c cmd then r else canned_reply cmd h'
  end.

Definition replay (cmd : string) (h : Canned) : (Z * string * string) * Canned :=
  (canned_reply cmd h, h).

(** A host with one package and one channel that come and go. *)
Record Toy : Type := mkToy {
  log_installed : bool;
  symfony_known : bool
}.

Definition toy_list (h : Toy) : string :=
  unlines (["Installed packages, channel pear.php.net:";
            "=========================================";
            "Package     Version State";
            "Archive_Tar 1.3.11  stable"]
           ++ (if log_installed h then ["Log         1.12.7  stable"] else [])
           ++ ["PEAR        1.9.4   stable"])%list.

Definition toy_list_channels (h : Toy) : string :=
  unlines (["Registered Channels:";
            "====================";
            "Channel          Alias   Summary";
            "pear.php.net     pear    PHP Extension and Application Repository"]
           ++ (if symfony_known h
               then ["pear.symfony.com symfony Symfony PEAR channel"] else [])
           ++ ["__uri           __uri   Pseudo-channel for static packages"])%list.

Definition toy_pear (cmd : string) (h : Toy) : (Z * string * string) * Toy :=
  if String.eqb cmd "pear list" then ((0%Z, toy_list h, ""), h)
  else if String.eqb cmd "pear list-channels"
  then ((0%Z, toy_list_channels h, ""), h)
  else if String.eqb cmd "pear install Log" then
    if log_installed h
    then ((1%Z, unlines ["pear/Log is already installed and is the same as the released version 1.12.7";
                         "install failed"], ""), h)
    else ((0%Z, unlines ["downloading Log-1.12.7.tgz ...";
                         "install ok: channel://pear.php.net/Log-1.12.7"], ""),
          mkToy true (symfony_known h))
  else if String.eqb cmd "pear uninstall Log" then
    if log_installed h
    then ((0%Z, unlines ["uninstall ok: channel://pear.php.net/Log-1.12.7"], ""),
          mkToy false (symfony_known h))
    else ((0%Z, unlines ["pear/Log not installed"], ""), h)
  else if String.eqb cmd "pear channel-discover pear.symfony.com" then
    if symfony_known h
    then ((1%Z, unlines ["Channel pear.symfony.com is already initialized"], ""), h)
    else ((0%Z, unlines ["Adding Channel pear.symfony.com succeeded";
                         "Discovery of channel pear.symfony.com succeeded"], ""),
          mkToy (log_installed h) true)
  else if String.eqb cmd "pear channel-delete pear.symfony.com" then
    if symfony_known h
    then ((0%Z, unlines ["Channel pear.symfony.com deleted"], ""),
          mkToy (log_installed h) false)
    else ((1%Z, unlines ["channel-delete: channel pear.symfony.com does not exist"], ""), h)
  else ((127%Z, "", "pear: unknown command"), h).

(** Parameters of the examples. *)
Definition install_log : Params :=
  mkParams present (Some "Log") None None false.

Definition discover_symfony : Params :=
  mkParams present None None (Some "pear.symfony.com") false.

Definition dry (p : Params) : Params :=
  mkParams (p_state p) (p_name p) (p_version p) (p_channel p) true.

(** Listings whose first line after the header does not unpack. *)
Definition blank_first_list : string :=
  unlines ["Installed packages, channel pear.php.net:";
           "=========================================";
           "Package     Version State";
           "";
           "Log         1.12.7  stable"].

Definition short_first_list : string :=
  unlines ["Installed packages, channel pear.php.net:";
           "=========================================";
           "Package     Version State";
           "Archive_Tar 1.3.11";
           "PEAR        1.9.4   stable"].

Definition blank_first_channels : string :=
  unlines ["Registered Channels:";
           "====================";
           "Channel          Alias   Summary";
           "";
           "pear.symfony.com symfony Symfony PEAR channel"].

Definition plain_list : string :=
  unlines ["Installed packages, channel pear.php.net:";
           "=========================================";
           "Package     Version State";
           "Archive_Tar 1.3.11  stable"].

Definition install_ok_out : string :=
  "install ok: channel://pear.php.net/Log-1.12.7".

Definition no_release_out : string :=
  "No releases available for package pear.php.net/Log".

Definition discovery_failed_out : string :=
  "Discovery of channel pear.symfony.com failed".

Definition channel_added_out : string :=
  "Channel pear.symfony.com added".

Definition canned_install_ok : Canned :=
  [("pear list", (0%Z, plain_list, ""));
   ("pear install Log", (0%Z, install_ok_out, ""))].

Definition canned_install_fails : Canned :=
  [("pear list", (0%Z, plain_list, ""));
   ("pear install Log", (1%Z, no_release_out, "install failed"))].

Definition canned_discover_fails : Canned :=
  [("pear channel-discover pear.symfony.com", (1%Z, discovery_failed_out, ""))].

Definition canned_discover_quiet : Canned :=
  [("pear channel-discover pear.symfony.com", (0%Z, channel_added_out, ""))].

Definition canned_list_fails : Canned :=
  [("pear list", (2%Z, "", "pear: cannot open the registry"))].

(** The two answers of a channel command that [main] takes for "nothing
    to do", and the two it takes for "done". *)
Definition channel_noop (p : Params) (rc : Z) (out : string) : bool :=
  (rc =? 1)%Z
  && contains (if desired p then "is already initialized"
               else "does not exist") out.

Definition channel_done (p : Params) (rc : Z) (out : string) : bool :=
  (rc =? 0)%Z
  && contains (if desired p then "succeeded" else "deleted") out.

(** ** Listings as the tool prints them *)

Fixpoint all_space (s : string) : bool :=
  match s with
  | EmptyString => true
  | String c s' => is_space c && all_space s'
  end.

Fixpoint has_char (c : ascii) (s : string) : bool :=
  match s with
  | EmptyString => false
  | String d s' => Ascii.eqb d c || has_char c s'
  end.

(** A column: not empty and free of whitespace. *)
Definition is_field (f : string) : bool :=
  negb (has_space f) && negb (String.eqb f "").

(** What stands between two columns: whitespace, at least one character. *)
Definition is_gap (w : string) : bool :=
  all_space w && negb (String.eqb w "").

(** A text that does not begin with whitespace (it may be empty and may
    have whitespace further on). *)
Definition starts_clean (s : string) : bool :=
  match s with
  | EmptyString => true
  | String c _ => negb (is_space c)
  end.

(** The field under construction gets the column [f] in front. *)
Definition cons_head (f : string) (fields : list string) : list string :=
  match fields with
  | x :: xs => (f ++ x) :: xs
  | [] => [f]
  end.

(** One row of [pear list]: three columns and the two gaps. *)
Record PkgRow : Type := mkPkgRow {
  row_name : string;
  row_gap1 : string;
  row_version : string;
  row_gap2 : string;
  row_status : string
}.

Definition render_row (r : PkgRow) : string :=
  row_name r ++ row_gap1 r ++ row_version r ++ row_gap2 r ++ row_status r.

Definition well_formed_row (r : PkgRow) : bool :=
  is_field (row_name r) && is_gap (row_gap1 r) && is_field (row_version r)
  && is_gap (row_gap2 r) && is_field (row_status r).

Definition row_matches (name : string) (version : option string) (r : PkgRow)
  : bool :=
  String.eqb (row_name r) name && version_matches version (row_version r).

(** Three header lines, then the rows, every line ended by a line feed. *)
Definition listing (h1 h2 h3 : string) (rows : list PkgRow) : string :=
  unlines (h1 :: h2 :: h3 :: map render_row rows).

(** One row of [pear list-channels]: address, alias and a summary that
    may have whitespace in it. *)
Record ChannelRow : Type := mkChannelRow {
  ch_url : string;
  ch_gap1 : string;
  ch_alias : string;
  ch_gap2 : string;
  ch_summary : string
}.

Definition render_channel (r : ChannelRow) : string :=
  ch_url r ++ ch_gap1 r ++ ch_alias r ++ ch_gap2 r ++ ch_summary r.

Definition well_formed_channel (r : ChannelRow) : bool :=
  is_field (ch_url r) && is_gap (ch_gap1 r) && is_field (ch_alias r)
  && is_gap (ch_gap2 r) && starts_clean (ch_summary r).

Definition channel_table (h1 h2 h3 : string) (rows : list ChannelRow) : string :=
  unlines (h1 :: h2 :: h3 :: map render_channel rows).

Definition php_channel : ChannelRow :=
  mkChannelRow "pear.php.net" "     " "pear" "    "
               "PHP Extension and Application Repository".

Definition symfony_channel : ChannelRow :=
  mkChannelRow "pear.symfony.com" " " "symfony" " " "Symfony PEAR channel".

Definition canned_channels : Canned :=
  [("pear list-channels",
    (0%Z, channel_table "Registered Channels:" "===================="
                        "Channel          Alias   Summary"
                        [php_channel; symfony_channel], ""))].

Definition log_row : PkgRow :=
  mkPkgRow "Log" "         " "1.12.7" "  " "stable".

Definition tar_row : PkgRow :=
  mkPkgRow "Archive_Tar" " " "1.3.11" "  " "stable".

Definition canned_listing : Canned :=
  [("pear list",
    (0%Z, listing "Installed packages, channel pear.php.net:"
                  "========================================="
                  "Package     Version State" [tar_row; log_row], ""))].

Definition canned_header_only : Canned :=
  [("pear list",
    (0%Z, listing "Installed packages, channel pear.php.net:"
                  "========================================="
                  "Package     Version State" [], ""))].


Definition canned_discover_crashes : Canned :=
  [("pear channel-discover pear.symfony.com",
    (255%Z, "PHP Fatal error", ""))].

Definition canned_discover_ok : Canned :=
  [("pear channel-discover pear.symfony.com",
    (0%Z, "Discovery of channel pear.symfony.com succeeded", ""))].

Definition no_target : Params := mkParams present (Some "") None None false.

(** ** Splitting *)

Lemma split_not_nil sep s : split sep s <> [].
Proof.
  destruct s as [|c s]; cbn [split]; [discriminate|].
  destruct (Ascii.eqb c sep); [discriminate|].
  destruct (split sep s); discriminate.
Qed.

(** Joining the pieces with the separator gives the string back. *)
Lemma join_split sep s : join sep (split sep s) = s.
Proof.
  induction s as [|c s IH]; [reflexivity|]. cbn [split].
  pose proof (split_not_nil sep s) as Hne.
  destruct (Ascii.eqb c sep) eqn:E.
  - apply Ascii.eqb_eq in E. subst c.
    destruct (split sep s) as [|q r]; [contradiction|].
    cbn [join append] in *. now rewrite IH.
  - destruct (split sep s) as [|q [|q' r]]; [contradiction| |];
      cbn [join append] in *; now rewrite IH.
Qed.

(** No piece has the separator in it. *)
Lemma split_pieces sep s :
  Forall (fun piece => forall pre post, piece <> pre ++ String sep post)
         (split sep s).
Proof.
  induction s as [|c s IH]; cbn [split].
  - constructor; [|constructor]. intros [|x pre] post; discriminate.
  - pose proof (split_not_nil sep s) as Hne.
    destruct (Ascii.eqb c sep) eqn:E.
    + constructor; [|exact IH]. intros [|x pre] post; discriminate.
    + destruct (split sep s) as [|q r]; [contradiction|].
      inversion IH as [|? ? Hq Hr]; subst. constructor; [|exact Hr].
      intros [|x pre] post; cbn [append]; intros [= -> H].
      * now rewrite Ascii.eqb_refl in E.
      * now apply (Hq pre post).
Qed.

Lemma re_split_from_not_nil budget in_run s :
  re_split_from budget in_run s <> [].
Proof.
  destruct s as [|c s]; cbn [re_split_from]; [discriminate|].
  destruct (is_space c && in_run); [|destruct (is_space c && _)].
  - revert budget. induction s as [|d s IHs]; intros budget;
      cbn [re_split_from]; [discriminate|].
    destruct (is_space d && true); [apply IHs|].
    destruct (is_space d && _); [discriminate|].
    destruct (re_split_from budget false s); discriminate.
  - discriminate.
  - destruct (re_split_from budget false s); discriminate.
Qed.

(** Without a bound on the cuts no field keeps a whitespace character. *)
Lemma re_split_fields_clean in_run s :
  Forall (fun field => has_space field = false) (re_split_from None in_run s).
Proof.
  revert in_run. induction s as [|c s IH]; intros in_run; cbn [re_split_from].
  - constructor; [reflexivity|constructor].
  - destruct (is_space c) eqn:Hc; cbn [andb].
    + destruct in_run; [apply IH|].
      constructor; [reflexivity|apply IH].
    + pose proof (re_split_from_not_nil None false s) as Hne.
      specialize (IH false).
      destruct (re_split_from None false s) as [|f fs]; [contradiction|].
      inversion IH as [|? ? Hf Hfs]; subst. constructor; [|exact Hfs].
      cbn [has_space]. now rewrite Hc, Hf.
Qed.

(** What Python answers on some lines of a listing. *)
Example re_split_row :
  re_split_ws "Log         1.12.7  stable" 0 = ["Log"; "1.12.7"; "stable"].
Proof. reflexivity. Qed.

Example re_split_blank : re_split_ws "" 0 = [""].
Proof. reflexivity. Qed.

Example re_split_trailing :
  re_split_ws "Log 1.12.7 stable " 0 = ["Log"; "1.12.7"; "stable"; ""].
Proof. reflexivity. Qed.

Example re_split_leading : re_split_ws " Log 1.12.7" 0 = [""; "Log"; "1.12.7"].
Proof. reflexivity. Qed.

Example re_split_channel_row :
  re_split_ws "pear.php.net     pear    PHP Extension and Application Repository" 2
  = ["pear.php.net"; "pear"; "PHP Extension and Application Repository"].
Proof. reflexivity. Qed.

Example re_split_channel_short : re_split_ws "__uri __uri" 2 = ["__uri"; "__uri"].
Proof. reflexivity. Qed.

Example split_lines :
  split LF (unlines ["a"; ""; "b"]) = ["a"; ""; "b"; ""].
Proof. reflexivity. Qed.

Example fail_msg_all :
  _fail_msg "out" "err" (Some 1%Z)
  = "stdout: out" ++ String LF ":stderr: err" ++ String LF "rc: 1".
Proof. reflexivity. Qed.

(** ** The parsing loops *)

(** Once the variables are bound to a line that does not match, the loop
    answers whether a later line that unpacks matches: a line that does
    not unpack is tested on the old fields again, and fails again. *)
Lemma for_pkg_bound name version lines :
  forall a b c,
    String.eqb a name && version_matches version b = false ->
    for_pkg name version (Some (a, b, c)) lines
    = inr (existsb (pkg_line_matches name version) lines).
Proof.
  induction lines as [|line rest IH]; intros a b c Hstale; [reflexivity|].
  cbn [for_pkg existsb]. unfold pkg_line_matches at 1, unpack3.
  destruct (re_split_ws line 0) as [|f1 [|f2 [|f3 [|f4 fs]]]];
    try (rewrite Hstale; cbn [orb]; apply IH; exact Hstale).
  destruct (String.eqb f1 name && version_matches version f2) eqn:Hm.
  - reflexivity.
  - cbn [orb]. apply IH. exact Hm.
Qed.

Lemma for_channel_bound name lines :
  forall a b c,
    String.eqb a name = false ->
    for_channel name (Some (a, b, c)) lines
    = inr (existsb (channel_line_matches name) lines).
Proof.
  induction lines as [|line rest IH]; intros a b c Hstale; [reflexivity|].
  cbn [for_channel existsb]. unfold channel_line_matches at 1, unpack3.
  destruct (re_split_ws line 2) as [|f1 [|f2 [|f3 [|f4 fs]]]];
    try (rewrite Hstale; cbn [orb]; apply IH; exact Hstale).
  destruct (String.eqb f1 name) eqn:Hm.
  - reflexivity.
  - cbn [orb]. apply IH. exact Hm.
Qed.

(** The whole loop, from unbound variables: the first line decides
    between an answer and the exception. *)
Lemma for_pkg_unbound name version lines :
  for_pkg name version None lines =
  match lines with
  | [] => inr false
  | line :: _ =>
      if unpacks (re_split_ws line 0)
      then inr (existsb (pkg_line_matches name version) lines)
      else inl (UnboundLocalError "pkg_name")
  end.
Proof.
  destruct lines as [|line rest]; [reflexivity|].
  cbn [for_pkg existsb]. unfold pkg_line_matches at 1, unpack3, unpacks.
  destruct (re_split_ws line 0) as [|f1 [|f2 [|f3 [|f4 fs]]]]; try reflexivity.
  destruct (String.eqb f1 name && version_matches version f2) eqn:Hm.
  - reflexivity.
  - cbn [orb]. apply for_pkg_bound. exact Hm.
Qed.

Lemma for_channel_unbound name lines :
  for_channel name None lines =
  match lines with
  | [] => inr false
  | line :: _ =>
      if unpacks (re_split_ws line 2)
      then inr (existsb (channel_line_matches name) lines)
      else inl (UnboundLocalError "channel_url")
  end.
Proof.
  destruct lines as [|line rest]; [reflexivity|].
  cbn [for_channel existsb]. unfold channel_line_matches at 1, unpack3, unpacks.
  destruct (re_split_ws line 2) as [|f1 [|f2 [|f3 [|f4 fs]]]]; try reflexivity.
  destruct (String.eqb f1 name) eqn:Hm.
  - reflexivity.
  - cbn [orb]. apply for_channel_bound. exact Hm.
Qed.

Lemma append_assoc (a b c : string) : (a ++ b) ++ c = a ++ (b ++ c).
Proof. induction a as [|x a IH]; cbn; [reflexivity | now rewrite IH]. Qed.

Lemma append_empty_r (a : string) : a ++ "" = a.
Proof. induction a as [|x a IH]; cbn; [reflexivity | now rewrite IH]. Qed.

(** [contains] is the substring test. *)
Lemma prefix_app sub s :
  prefix sub s = true <-> exists post, s = sub ++ post.
Proof.
  revert s. induction sub as [|c sub IH]; intros s.
  - split; [intros _; exists s; reflexivity | intros _; destruct s; reflexivity].
  - destruct s as [|d s]; cbn [prefix].
    + split; [discriminate | intros [post H]; discriminate H].
    + destruct (ascii_dec c d) as [->|Hne].
      * rewrite IH. split; intros [post H]; exists post.
        -- cbn. now rewrite H.
        -- cbn in H. now inversion H.
      * split; [discriminate|]. intros [post H]. cbn in H. congruence.
Qed.

Lemma contains_substring sub s :
  contains sub s = true <-> exists pre post, s = pre ++ sub ++ post.
Proof.
  induction s as [|c s IH].
  - cbn [contains]. destruct (prefix sub "") eqn:Hp.
    + split; [intros _|reflexivity]. apply prefix_app in Hp as [post H].
      exists "", post. exact H.
    + split; [discriminate|]. intros (pre & post & H).
      destruct pre; [|discriminate H]. cbn in H.
      assert (prefix sub "" = true) by (apply prefix_app; eauto).
      congruence.
  - cbn [contains]. destruct (prefix sub (String c s)) eqn:Hp.
    + split; [intros _|reflexivity]. apply prefix_app in Hp as [post H].
      exists "", post. exact H.
    + rewrite IH. split.
      * intros (pre & post & H). exists (String c pre), post. cbn. now rewrite H.
      * intros (pre & post & H). destruct pre as [|d pre].
        -- cbn in H. assert (prefix sub (String c s) = true)
             by (apply prefix_app; eauto). congruence.
        -- cbn in H. inversion H. eauto.
Qed.

(** ** Running the module *)

Section Runs.

Variable Host : Type.
Variable execute : string -> Host -> (Z * string * string) * Host.

(** Each query runs its listing command once and nothing else. *)
Lemma _is_package_present_run name version h rc out err h1 :
  execute "pear list" h = ((rc, out, err), h1) ->
  _is_package_present execute name version h
  = (query_answer rc (for_pkg name version None (skipn 3 (split LF out))),
     h1, ["pear list"]).
Proof.
  intros He. unfold _is_package_present, bind, run_command, query_answer.
  rewrite He. destruct (negb (rc =? 0)%Z); [reflexivity|].
  cbn. destruct (for_pkg _ _ _ _); reflexivity.
Qed.

Lemma _is_channel_present_run name h rc out err h1 :
  execute "pear list-channels" h = ((rc, out, err), h1) ->
  _is_channel_present execute name h
  = (query_answer rc (for_channel name None (skipn 3 (split LF out))),
     h1, ["pear list-channels"]).
Proof.
  intros He. unfold _is_channel_present, bind, run_command, query_answer.
  rewrite He. destruct (negb (rc =? 0)%Z); [reflexivity|].
  cbn. destruct (for_channel _ _ _); reflexivity.
Qed.

Lemma _is_package_present_trace name version h :
  trace (_is_package_present execute name version h) = ["pear list"].
Proof.
  destruct (execute "pear list" h) as [[[rc out] err] h1] eqn:He.
  now rewrite (_is_package_present_run name version _ _ _ _ _ He).
Qed.

Lemma _is_channel_present_trace name h :
  trace (_is_channel_present execute name h) = ["pear list-channels"].
Proof.
  destruct (execute "pear list-channels" h) as [[[rc out] err] h1] eqn:He.
  now rewrite (_is_channel_present_run name _ _ _ _ _ He).
Qed.

Lemma main_check_package p n h :
  check_mode p = true -> truthy (p_name p) = Some n ->
  main execute p h
  = match _is_package_present execute n (p_version p) h with
    | (Ret b, h1, t) => (Halt (ExitJson (predicted p b)), h1, t)
    | (Halt s, h1, t) => (Halt s, h1, t)
    end.
Proof.
  intros Hc Hn. unfold main. rewrite Hc, Hn.
  pose proof (_is_package_present_trace n (p_version p) h) as Ht.
  unfold bind at 1. cbn [ret]. unfold bind at 1. unfold bind at 1.
  destruct (_is_package_present execute n (p_version p) h) as [[[b|s] h1] t];
    cbn in Ht; subst t; [|reflexivity].
  unfold predicted, desired. destruct (p_state p), b; reflexivity.
Qed.

Lemma main_check_channel p c h :
  check_mode p = true ->
  truthy (p_name p) = None -> truthy (p_channel p) = Some c ->
  main execute p h
  = match _is_channel_present execute c h with
    | (Ret b, h1, t) => (Halt (ExitJson (predicted p b)), h1, t)
    | (Halt s, h1, t) => (Halt s, h1, t)
    end.
Proof.
  intros Hc Hn Hch. unfold main. rewrite Hc, Hn, Hch.
  pose proof (_is_channel_present_trace c h) as Ht.
  unfold bind at 1. cbn [ret]. unfold bind at 1. unfold bind at 1.
  destruct (_is_channel_present execute c h) as [[[b|s] h1] t];
    cbn in Ht; subst t; [|reflexivity].
  unfold predicted, desired. destruct (p_state p), b; reflexivity.
Qed.

Ltac ended Hs :=
  cbn -[pear_cmd contains _fail_msg]; unfold final_report;
  rewrite ?Hs, ?app_nil_r; reflexivity.

Lemma main_real_package p n h :
  check_mode p = false -> truthy (p_name p) = Some n ->
  main execute p h
  = match _is_package_present execute n (p_version p) h with
    | (Halt s, h1, t) => (Halt s, h1, t)
    | (Ret b, h1, t) =>
        if Bool.eqb b (desired p)
        then (Halt (ExitJson [("changed", VBool false);
                              ("name", opt_val (p_name p));
                              ("version", opt_val (p_version p))]), h1, t)
        else
          let cmd := pear_cmd (package_state_map (p_state p))
                              (_get_full_name n (p_version p)) in
          let '((rc, out, err), h2) := execute cmd h1 in
          (Halt (package_ending p cmd rc out err), h2, (t ++ [cmd])%list)
    end.
Proof.
  intros Hc Hn. unfold main. rewrite Hc, Hn.
  unfold bind at 1. cbn [ret]. unfold bind at 1. cbn [ret app].
  unfold bind at 1. unfold bind at 1.
  destruct (_is_package_present execute n (p_version p) h) as [[[b|s] h1] t];
    [|reflexivity].
  unfold desired.
  destruct (p_state p) eqn:Hs, b; cbn [is_present_state is_absent_state
    andb orb negb Bool.eqb exit_json halt ret]; try (rewrite app_nil_r; reflexivity).
  all: unfold bind at 1; unfold run_command;
    destruct (execute _ h1) as [[[rc out] err] h2];
    unfold package_ending, desired; rewrite Hs;
    cbn [is_present_state is_absent_state andb orb negb];
    rewrite ?andb_false_r, ?andb_true_r; cbn [andb orb negb].
  - destruct (rc =? 1)%Z eqn:H1.
    + apply Z.eqb_eq in H1. subst rc. cbn [Z.eqb negb andb].
      destruct (contains "already installed" out);
        ended Hs.
    + cbn [andb negb]. rewrite andb_true_r.
      destruct (rc =? 0)%Z;
        ended Hs.
  - destruct (rc =? 0)%Z eqn:H0.
    + cbn [andb negb]. destruct (contains "not installed" out);
        ended Hs.
    + ended Hs.
Qed.

Lemma main_real_channel p c h :
  check_mode p = false ->
  truthy (p_name p) = None -> truthy (p_channel p) = Some c ->
  main execute p h
  = let cmd := pear_cmd (channel_state_map (p_state p)) c in
    let '((rc, out, err), h2) := execute cmd h in
    (Halt (channel_ending p cmd rc out err), h2, [cmd]).
Proof.
  intros Hc Hn Hch. unfold main. rewrite Hc, Hn, Hch.
  unfold bind at 1. cbn [ret]. unfold bind at 1. cbn [ret app].
  unfold bind at 1. cbn [ret app]. unfold bind at 1. unfold run_command.
  cbv zeta.
  destruct (execute _ h) as [[[rc out] err] h2].
  unfold channel_ending, channel_changed, desired.
  destruct (p_state p) eqn:Hs; cbn [is_present_state is_absent_state negb];
    rewrite ?andb_false_r, ?andb_true_r; cbn [andb].
  - destruct ((rc =? 1)%Z && contains "is already initialized" out);
      [ended Hs|].
    destruct ((rc =? 0)%Z && contains "succeeded" out); [ended Hs|].
    destruct (rc =? 1)%Z; ended Hs.
  - destruct ((rc =? 1)%Z && contains "does not exist" out); [ended Hs|].
    destruct ((rc =? 0)%Z && contains "deleted" out); [ended Hs|].
    destruct (rc =? 1)%Z; ended Hs.
Qed.

Lemma main_no_target p h :
  truthy (p_name p) = None -> truthy (p_channel p) = None ->
  main execute p h
  = (Halt (FailJson [("msg", VStr "not enough parameters")]), h, []).
Proof. intros Hn Hch. unfold main. rewrite Hn, Hch. reflexivity. Qed.

(** What [current_presence] says, read back on [main]'s query. *)
Lemma current_presence_package p n h b :
  truthy (p_name p) = Some n ->
  current_presence execute p h = Some b ->
  exists h1,
    _is_package_present execute n (p_version p) h = (Ret b, h1, ["pear list"]).
Proof.
  intros Hn. unfold current_presence. rewrite Hn.
  pose proof (_is_package_present_trace n (p_version p) h) as Ht.
  destruct (_is_package_present execute n (p_version p) h) as [[[b'|s] h1] t];
    cbn in *; intros [= ->]. subst t. eauto.
Qed.

Lemma current_presence_channel p c h b :
  truthy (p_name p) = None -> truthy (p_channel p) = Some c ->
  current_presence execute p h = Some b ->
  exists h1,
    _is_channel_present execute c h = (Ret b, h1, ["pear list-channels"]).
Proof.
  intros Hn Hc. unfold current_presence. rewrite Hn, Hc.
  pose proof (_is_channel_present_trace c h) as Ht.
  destruct (_is_channel_present execute c h) as [[[b'|s] h1] t];
    cbn in *; intros [= ->]. subst t. eauto.
Qed.

(** The command of the target is never a listing command. *)
Lemma action_cmd_not_query p cmd :
  action_cmd p = Some cmd -> ~ In cmd (query_trace p).
Proof.
  unfold action_cmd, query_trace.
  destruct (truthy (p_name p)) as [n|]; [|destruct (truthy (p_channel p)) as [c|]].
  - intros [= <-] [H|[]]. destruct (p_state p); discriminate H.
  - intros [= <-] [H|[]]. destruct (p_state p); discriminate H.
  - discriminate.
Qed.

Lemma main_check_trace p h :
  check_mode p = true -> trace (main execute p h) = query_trace p.
Proof.
  intros Hc. unfold query_trace.
  destruct (truthy (p_name p)) as [n|] eqn:Hn;
    [|destruct (truthy (p_channel p)) as [c|] eqn:Hch].
  - rewrite (main_check_package p n h Hc Hn).
    pose proof (_is_package_present_trace n (p_version p) h) as Ht.
    destruct (_is_package_present execute n (p_version p) h) as [[[b|s] h1] t];
      exact Ht.
  - rewrite (main_check_channel p c h Hc Hn Hch).
    pose proof (_is_channel_present_trace c h) as Ht.
    destruct (_is_channel_present execute c h) as [[[b|s] h1] t]; exact Ht.
  - now rewrite (main_no_target p h Hn Hch).
Qed.

End Runs.

(** ** Properties of the specification *)

Section Properties.

Variable Host : Type.
Variable execute : string -> Host -> (Z * string * string) * Host.

(** A run that begins with the presence query and finds the desired
    presence ends there. *)
Lemma matching_presence_ends_run (p : Params) (h : Host) :
  queries_first p = true ->
  current_presence execute p h = Some (desired p) ->
  exists kw h1,
    main execute p h = (Halt (ExitJson kw), h1, query_trace p) /\
    kwarg "changed" kw = Some (VBool false) /\
    (forall cmd, action_cmd p = Some cmd -> ~ In cmd (query_trace p)).
Proof.
  intros Hscope Hcur.
  assert (Hq := action_cmd_not_query p).
  destruct (truthy (p_name p)) as [n|] eqn:Hn.
  - destruct (current_presence_package _ execute p n h _ Hn Hcur) as [h1 Hrun].
    assert (Htr : query_trace p = ["pear list"])
      by (unfold query_trace; now rewrite Hn).
    rewrite Htr in *.
    destruct (check_mode p) eqn:Hc.
    + rewrite (main_check_package _ execute p n h Hc Hn), Hrun.
      exists (predicted p (desired p)), h1.
      split; [reflexivity|]. split; [|exact Hq].
      unfold predicted. cbn. now rewrite xorb_nilpotent.
    + rewrite (main_real_package _ execute p n h Hc Hn), Hrun.
      rewrite eqb_reflx. eexists _, h1.
      split; [reflexivity|]. split; [reflexivity|exact Hq].
  - assert (Hc : check_mode p = true)
      by (unfold queries_first in Hscope; now rewrite Hn in Hscope).
    destruct (truthy (p_channel p)) as [c|] eqn:Hch.
    + destruct (current_presence_channel _ execute p c h _ Hn Hch Hcur)
        as [h1 Hrun].
      assert (Htr : query_trace p = ["pear list-channels"])
        by (unfold query_trace; now rewrite Hn, Hch).
      rewrite Htr in *.
      rewrite (main_check_channel _ execute p c h Hc Hn Hch), Hrun.
      exists (predicted p (desired p)), h1.
      split; [reflexivity|]. split; [|exact Hq].
      unfold predicted. cbn. now rewrite xorb_nilpotent.
    + unfold current_presence in Hcur. rewrite Hn, Hch in Hcur. discriminate.
Qed.

(** A real run for a channel asks nothing: the command of the target is
    the one command it runs, whatever the listing would show. *)
Lemma real_channel_run_acts (p : Params) (c : string) (h : Host) :
  check_mode p = false ->
  truthy (p_name p) = None -> truthy (p_channel p) = Some c ->
  trace (main execute p h) = [pear_cmd (channel_state_map (p_state p)) c].
Proof.
  intros Hc Hn Hch. rewrite (main_real_channel _ execute p c h Hc Hn Hch).
  cbv zeta. destruct (execute _ h) as [[[rc out] err] h2]. reflexivity.
Qed.

(** C3, as amended.  For a package target, in a real run as well as in a
    dry run, and for a channel target in a dry run: when the presence the
    query reports equals the desired presence, the run ends with
    [changed=False] after the listing command alone, and the command of
    the target is not among the commands run.  A real run for a channel
    makes no query: the command of the target is the one command run. *)
Theorem presence_match_no_action (p : Params) (h : Host) :
  (queries_first p = true ->
   current_presence execute p h = Some (desired p) ->
   exists kw h1,
     main execute p h = (Halt (ExitJson kw), h1, query_trace p) /\
     kwarg "changed" kw = Some (VBool false) /\
     (forall cmd, action_cmd p = Some cmd -> ~ In cmd (query_trace p))) /\
  (queries_first p = false ->
   forall cmd, action_cmd p = Some cmd -> trace (main execute p h) = [cmd]).
Proof.
  split; [apply matching_presence_ends_run|].
  unfold queries_first, action_cmd.
  destruct (truthy (p_name p)) as [n|] eqn:Hn; [discriminate|].
  intros Hc cmd.
  destruct (truthy (p_channel p)) as [c|] eqn:Hch; [|discriminate].
  intros [= <-]. now apply real_channel_run_acts.
Qed.

(** C4.  In a dry run the commands run are the listing command of the
    target and no other, so never the command of the target; and when
    the query reports a presence, the run ends with the report
    [changed=True] if that presence differs from the desired one and
    [changed=False] if it does not. *)
Theorem dry_run_only_queries (p : Params) (h : Host) :
  check_mode p = true ->
  trace (main execute p h) = query_trace p /\
  (forall cmd, action_cmd p = Some cmd ->
               ~ In cmd (trace (main execute p h))) /\
  (forall b, current_presence execute p h = Some b ->
             outcome (main execute p h)
             = Halt (ExitJson [("changed", VBool (negb (Bool.eqb b (desired p))));
                               ("stdout", VStr ""); ("stderr", VStr "")])).
Proof.
  intros Hc. pose proof (main_check_trace _ execute p h Hc) as Ht.
  split; [exact Ht|]. split.
  - intros cmd Hcmd. rewrite Ht. now apply action_cmd_not_query.
  - intros b Hcur.
    assert (Hx : xorb (desired p) b = negb (Bool.eqb b (desired p)))
      by (destruct b, (desired p); reflexivity).
    destruct (truthy (p_name p)) as [n|] eqn:Hn.
    + destruct (current_presence_package _ execute p n h b Hn Hcur) as [h1 Hrun].
      rewrite (main_check_package _ execute p n h Hc Hn), Hrun.
      unfold outcome, predicted. cbn. now rewrite Hx.
    + destruct (truthy (p_channel p)) as [c|] eqn:Hch.
      * destruct (current_presence_channel _ execute p c h b Hn Hch Hcur)
          as [h1 Hrun].
        rewrite (main_check_channel _ execute p c h Hc Hn Hch), Hrun.
        unfold outcome, predicted. cbn. now rewrite Hx.
      * unfold current_presence in Hcur. rewrite Hn, Hch in Hcur. discriminate.
Qed.

(** C10.  When the listing command returns a code other than zero, the
    query calls [fail_json] with no keyword argument at all, and so does
    every run that makes the query: the report has no [cmd], no [msg]
    and nothing of what the command printed. *)
Theorem query_failure_report_is_empty
  (p : Params) (h h1 : Host) (rc : Z) (out err : string) :
  rc <> 0%Z ->
  (forall name version,
      execute "pear list" h = ((rc, out, err), h1) ->
      _is_package_present execute name version h
      = (Halt (FailJson []), h1, ["pear list"])) /\
  (forall name,
      execute "pear list-channels" h = ((rc, out, err), h1) ->
      _is_channel_present execute name h
      = (Halt (FailJson []), h1, ["pear list-channels"])) /\
  (forall n,
      truthy (p_name p) = Some n ->
      execute "pear list" h = ((rc, out, err), h1) ->
      main execute p h = (Halt (FailJson []), h1, ["pear list"])) /\
  (forall c,
      truthy (p_name p) = None -> truthy (p_channel p) = Some c ->
      check_mode p = true ->
      execute "pear list-channels" h = ((rc, out, err), h1) ->
      main execute p h = (Halt (FailJson []), h1, ["pear list-channels"])).
Proof.
  intros Hrc.
  assert (Hq : forall r, query_answer rc r = Halt (FailJson [])).
  { intros r. unfold query_answer.
    destruct (rc =? 0)%Z eqn:E; [apply Z.eqb_eq in E; contradiction|].
    reflexivity. }
  assert (Hpkg : forall name version,
             execute "pear list" h = ((rc, out, err), h1) ->
             _is_package_present execute name version h
             = (Halt (FailJson []), h1, ["pear list"])).
  { intros name version He.
    now rewrite (_is_package_present_run _ execute name version h _ _ _ _ He), Hq. }
  assert (Hch : forall name,
             execute "pear list-channels" h = ((rc, out, err), h1) ->
             _is_channel_present execute name h
             = (Halt (FailJson []), h1, ["pear list-channels"])).
  { intros name He.
    now rewrite (_is_channel_present_run _ execute name h _ _ _ _ He), Hq. }
  repeat split; try assumption.
  - intros n Hn He. destruct (check_mode p) eqn:Hc.
    + now rewrite (main_check_package _ execute p n h Hc Hn), (Hpkg _ _ He).
    + now rewrite (main_real_package _ execute p n h Hc Hn), (Hpkg _ _ He).
  - intros c Hn Hc Hcm He.
    now rewrite (main_check_channel _ execute p c h Hcm Hn Hc), (Hch _ He).
Qed.

(** A package action ends as [package_ending] says, after the listing
    and the command of the target. *)
Lemma package_action_run p h n rc out err h1 h2 :
  package_action execute p h n rc out err h1 h2 ->
  let cmd := pear_cmd (package_state_map (p_state p))
                      (_get_full_name n (p_version p)) in
  main execute p h
  = (Halt (package_ending p cmd rc out err), h2, ["pear list"; cmd]).
Proof.
  intros (Hn & Hc & Hq & He) cmd.
  rewrite (main_real_package _ execute p n h Hc Hn), Hq.
  replace (Bool.eqb (negb (desired p)) (desired p)) with false
    by (now destruct (desired p)).
  subst cmd. cbv zeta. now rewrite He.
Qed.

Lemma channel_action_run p h c rc out err h2 :
  channel_action execute p h c rc out err h2 ->
  let cmd := pear_cmd (channel_state_map (p_state p)) c in
  main execute p h = (Halt (channel_ending p cmd rc out err), h2, [cmd]).
Proof.
  intros (Hn & Hch & Hc & He) cmd.
  rewrite (main_real_channel _ execute p c h Hc Hn Hch).
  subst cmd. cbv zeta. now rewrite He.
Qed.

(** Without a return code the message of [_fail] is the standard
    output and the standard error, each under its label and each left
    out when empty. *)
Lemma _fail_msg_no_rc out err :
  _fail_msg out err None
  = (if String.eqb out "" then "" else "stdout: " ++ out)
    ++ (if String.eqb err "" then "" else String LF ":stderr: " ++ err).
Proof.
  unfold _fail_msg.
  destruct (String.eqb out ""), (String.eqb err ""); cbn [append];
    rewrite ?append_empty_r; reflexivity.
Qed.


(** C5.  When a package action ends with a report and not with an
    error, its [changed] is true exactly if the output of the command
    contains "uninstall ok" and the desired state is absent, or
    contains "install ok" and the desired state is present; otherwise
    it is false, whatever the return code. *)
Theorem package_changed_iff_ok_marker
  (p : Params) (h h1 h2 : Host) (n : string) (rc : Z) (out err : string) :
  package_action execute p h n rc out err h1 h2 ->
  forall kw,
    outcome (main execute p h) = Halt (ExitJson kw) ->
    exists changed,
      kwarg "changed" kw = Some (VBool changed) /\
      (changed = true <->
       (p_state p = absent /\ contains "uninstall ok" out = true) \/
       (p_state p = present /\ contains "install ok" out = true)).
Proof.
  intros Ha kw. rewrite (package_action_run _ _ _ _ _ _ _ _ Ha).
  unfold outcome, package_ending. cbn [fst].
  destruct (negb (rc =? 0)%Z && _); [discriminate|].
  intros [= <-]. eexists. split; [reflexivity|].
  unfold desired. destruct (p_state p); cbn [is_present_state].
  - split; [intros H; right; now split|].
    intros [[H _]|[_ H]]; [discriminate H|exact H].
  - split; [intros H; left; now split|].
    intros [[_ H]|[H _]]; [exact H|discriminate H].
Qed.


(** C7, as amended.  A channel action that returns 1 with neither
    tolerated answer ends with the error report of [_fail]: the command,
    and a message made of "stdout: " and the standard output if that is
    not empty, then a line feed, ":stderr: " and the standard error if
    that is not empty, then a line feed and "rc: 1".  An empty stream
    is left out together with its label. *)
Theorem channel_failure_message
  (p : Params) (h h2 : Host) (c : string) (out err : string) :
  channel_action execute p h c 1%Z out err h2 ->
  (p_state p = present -> contains "is already initialized" out = false) ->
  (p_state p = absent -> contains "does not exist" out = false) ->
  let cmd := pear_cmd (channel_state_map (p_state p)) c in
  main execute p h
  = (Halt (FailJson
             [("cmd", VStr cmd);
              ("msg", VStr ((if String.eqb out "" then ""
                             else "stdout: " ++ out)
                            ++ (if String.eqb err "" then ""
                                else String LF ":stderr: " ++ err)
                            ++ String LF "rc: 1"))]),
     h2, [cmd]).
Proof.
  intros Ha Hp Hab cmd. rewrite (channel_action_run _ _ _ _ _ _ _ Ha). fold cmd.
  unfold channel_ending, channel_changed, desired.
  destruct (p_state p); cbn [is_present_state negb Z.eqb andb].
  - rewrite (Hp eq_refl). cbn [andb]. unfold failure_report, _fail_msg.
    destruct (String.eqb out ""), (String.eqb err "");
      cbn [Z.eqb]; rewrite ?append_assoc; reflexivity.
  - rewrite (Hab eq_refl). cbn [andb]. unfold failure_report, _fail_msg.
    destruct (String.eqb out ""), (String.eqb err "");
      cbn [Z.eqb]; rewrite ?append_assoc; reflexivity.
Qed.

(** C8.  A channel action that returns 0 and whose output has not the
    marker of its direction assigns nothing to [changed]; the report at
    the end of [main] reads the variable and the run ends with
    [UnboundLocalError] and no report. *)
Theorem channel_unmarked_success_raises
  (p : Params) (h h2 : Host) (c : string) (out err : string) :
  channel_action execute p h c 0%Z out err h2 ->
  (p_state p = present -> contains "succeeded" out = false) ->
  (p_state p = absent -> contains "deleted" out = false) ->
  main execute p h
  = (Halt (Raised (UnboundLocalError "changed")), h2,
     [pear_cmd (channel_state_map (p_state p)) c]).
Proof.
  intros Ha Hp Hab. rewrite (channel_action_run _ _ _ _ _ _ _ Ha).
  unfold channel_ending, channel_changed, desired.
  destruct (p_state p); cbn [is_present_state negb Z.eqb andb].
  - now rewrite (Hp eq_refl).
  - now rewrite (Hab eq_refl).
Qed.


End Properties.

(** ** The presence queries on a listing *)

Section Queries.

Variable Host : Type.
Variable execute : string -> Host -> (Z * string * string) * Host.

(** X1.  When the first line after the header unpacks, or when no line
    follows the header, the query answers whether the package is
    listed; lines that do not unpack change nothing. *)
Theorem _is_package_present_answers name version h out err h1 :
  execute "pear list" h = ((0%Z, out, err), h1) ->
  match skipn 3 (split LF out) with
  | [] => true
  | line :: _ => unpacks (re_split_ws line 0)
  end = true ->
  _is_package_present execute name version h
  = (Ret (listed name version out), h1, ["pear list"]).
Proof.
  intros He Hfirst.
  rewrite (_is_package_present_run _ execute name version h _ _ _ _ He).
  unfold query_answer, listed. cbn [Z.eqb negb].
  rewrite for_pkg_unbound.
  destruct (skipn 3 (split LF out)) as [|line rest]; [reflexivity|].
  now rewrite Hfirst.
Qed.

(** X2.  When the first line after the header of [pear list] does not
    unpack, the test that follows reads [pkg_name] unbound and the query
    raises, whatever the later lines list. *)
Theorem _is_package_present_raises name version h out err h1 line rest :
  execute "pear list" h = ((0%Z, out, err), h1) ->
  skipn 3 (split LF out) = line :: rest ->
  unpacks (re_split_ws line 0) = false ->
  _is_package_present execute name version h
  = (Halt (Raised (UnboundLocalError "pkg_name")), h1, ["pear list"]).
Proof.
  intros He Hlines Hfirst.
  rewrite (_is_package_present_run _ execute name version h _ _ _ _ He).
  unfold query_answer. cbn [Z.eqb negb].
  now rewrite for_pkg_unbound, Hlines, Hfirst.
Qed.

(** X3.  When the first line after the header of [pear list-channels] unpacks,
    or when no line follows the header, the channel query answers whether
    the channel is listed; lines that do not unpack change nothing. *)
Theorem _is_channel_present_answers name h out err h1 :
  execute "pear list-channels" h = ((0%Z, out, err), h1) ->
  match skipn 3 (split LF out) with
  | [] => true
  | line :: _ => unpacks (re_split_ws line 2)
  end = true ->
  _is_channel_present execute name h
  = (Ret (channel_listed name out), h1, ["pear list-channels"]).
Proof.
  intros He Hfirst.
  rewrite (_is_channel_present_run _ execute name h _ _ _ _ He).
  unfold query_answer, channel_listed. cbn [Z.eqb negb].
  rewrite for_channel_unbound.
  destruct (skipn 3 (split LF out)) as [|line rest]; [reflexivity|].
  now rewrite Hfirst.
Qed.

(** X4.  When the first line after the header of [pear list-channels] does
    not unpack, the test that follows reads [channel_url] unbound and the
    query raises, whatever the later lines list. *)
Theorem _is_channel_present_raises name h out err h1 line rest :
  execute "pear list-channels" h = ((0%Z, out, err), h1) ->
  skipn 3 (split LF out) = line :: rest ->
  unpacks (re_split_ws line 2) = false ->
  _is_channel_present execute name h
  = (Halt (Raised (UnboundLocalError "channel_url")), h1,
     ["pear list-channels"]).
Proof.
  intros He Hlines Hfirst.
  rewrite (_is_channel_present_run _ execute name h _ _ _ _ He).
  unfold query_answer. cbn [Z.eqb negb].
  now rewrite for_channel_unbound, Hlines, Hfirst.
Qed.

End Queries.

(** ** The properties at concrete hosts *)

(** C1.  The listing [blank_first_list] has, after its three header
    lines, the line of package Log, which splits into three fields; the
    specification asks for [True].  A blank line comes first, so the query reads
    [pkg_name] before any assignment and the call ends with
    [UnboundLocalError] instead of an answer. *)
Theorem listed_package_raises_after_blank_line :
  listed "Log" None blank_first_list = true /\
  _is_package_present replay "Log" None
    [("pear list", (0%Z, blank_first_list, ""))]
  = (Halt (Raised (UnboundLocalError "pkg_name")),
     [("pear list", (0%Z, blank_first_list, ""))], ["pear list"]).
Proof. split; vm_compute; reflexivity. Qed.

(** C2.  A first line after the header that does not unpack is not
    skipped by either query: on [short_first_list], whose well-formed
    lines do not list Log, the package query raises where the
    specification asks for [False]; on [blank_first_channels], which lists
    the channel after a blank line, the channel query raises where the
    specification asks for [True]. *)
Theorem malformed_first_line_raises :
  (listed "Log" None short_first_list = false /\
   _is_package_present replay "Log" None
     [("pear list", (0%Z, short_first_list, ""))]
   = (Halt (Raised (UnboundLocalError "pkg_name")),
      [("pear list", (0%Z, short_first_list, ""))], ["pear list"])) /\
  (channel_listed "pear.symfony.com" blank_first_channels = true /\
   _is_channel_present replay "pear.symfony.com"
     [("pear list-channels", (0%Z, blank_first_channels, ""))]
   = (Halt (Raised (UnboundLocalError "channel_url")),
      [("pear list-channels", (0%Z, blank_first_channels, ""))],
      ["pear list-channels"])).
Proof. repeat split; vm_compute; reflexivity. Qed.

(** C3 as stated fails for a channel in a real run: the host knows the
    channel and the channel is desired, so the presence the query reports
    matches; yet the run makes no query and executes
    [pear channel-discover]. *)
Lemma known_channel_is_discovered_again :
  current_presence toy_pear discover_symfony (mkToy false true)
  = Some (desired discover_symfony) /\
  action_cmd discover_symfony = Some "pear channel-discover pear.symfony.com" /\
  trace (main toy_pear discover_symfony (mkToy false true))
  = ["pear channel-discover pear.symfony.com"].
Proof. repeat split; vm_compute; reflexivity. Qed.

(** C7 as stated fails when a stream is empty: with nothing on standard
    error the message of the report has no "stderr:" label. *)
Lemma failure_message_without_stderr_label :
  channel_action replay discover_symfony canned_discover_fails
    "pear.symfony.com" 1%Z discovery_failed_out "" canned_discover_fails /\
  contains "is already initialized" discovery_failed_out = false /\
  exists msg,
    outcome (main replay discover_symfony canned_discover_fails)
    = Halt (FailJson [("cmd", VStr "pear channel-discover pear.symfony.com");
                      ("msg", VStr msg)]) /\
    msg = "stdout: " ++ discovery_failed_out ++ String LF "rc: 1" /\
    contains "stderr:" msg = false.
Proof.
  split; [repeat split|]. split; [reflexivity|].
  eexists. split; [vm_compute; reflexivity|]. split; reflexivity.
Qed.

(** *** Instances *)

Lemma presence_match_no_action_witness :
  exists kw h1,
    main toy_pear install_log (mkToy true false)
    = (Halt (ExitJson kw), h1, query_trace install_log) /\
    kwarg "changed" kw = Some (VBool false) /\
    (forall cmd, action_cmd install_log = Some cmd ->
                 ~ In cmd (query_trace install_log)).
Proof.
  apply (proj1 (presence_match_no_action Toy toy_pear install_log
                  (mkToy true false))).
  - reflexivity.
  - vm_compute. reflexivity.
Defined.

Lemma dry_run_only_queries_witness :
  trace (main toy_pear (dry install_log) (mkToy false false))
  = query_trace (dry install_log) /\
  (forall cmd, action_cmd (dry install_log) = Some cmd ->
               ~ In cmd (trace (main toy_pear (dry install_log)
                                     (mkToy false false)))) /\
  (forall b, current_presence toy_pear (dry install_log) (mkToy false false)
             = Some b ->
             outcome (main toy_pear (dry install_log) (mkToy false false))
             = Halt (ExitJson
                       [("changed",
                         VBool (negb (Bool.eqb b (desired (dry install_log)))));
                        ("stdout", VStr ""); ("stderr", VStr "")])).
Proof.
  apply (dry_run_only_queries Toy toy_pear (dry install_log) (mkToy false false)).
  reflexivity.
Defined.

Lemma package_changed_iff_ok_marker_witness :
  exists changed,
    kwarg "changed"
      (final_report install_log "pear install Log" true install_ok_out "")
    = Some (VBool changed) /\
    (changed = true <->
     (p_state install_log = absent /\
      contains "uninstall ok" install_ok_out = true) \/
     (p_state install_log = present /\
      contains "install ok" install_ok_out = true)).
Proof.
  apply (package_changed_iff_ok_marker Canned replay install_log
           canned_install_ok canned_install_ok canned_install_ok
           "Log" 0%Z install_ok_out "").
  - repeat split.
  - vm_compute. reflexivity.
Defined.


Lemma channel_failure_message_witness :
  main replay discover_symfony canned_discover_fails
  = (Halt (FailJson
             [("cmd", VStr "pear channel-discover pear.symfony.com");
              ("msg", VStr ("stdout: " ++ discovery_failed_out
                            ++ String LF "rc: 1"))]),
     canned_discover_fails, ["pear channel-discover pear.symfony.com"]).
Proof.
  apply (channel_failure_message Canned replay discover_symfony
           canned_discover_fails canned_discover_fails
           "pear.symfony.com" discovery_failed_out "").
  - repeat split.
  - reflexivity.
  - discriminate.
Defined.

Lemma channel_unmarked_success_raises_witness :
  main replay discover_symfony canned_discover_quiet
  = (Halt (Raised (UnboundLocalError "changed")), canned_discover_quiet,
     ["pear channel-discover pear.symfony.com"]).
Proof.
  apply (channel_unmarked_success_raises Canned replay discover_symfony
           canned_discover_quiet canned_discover_quiet
           "pear.symfony.com" channel_added_out "").
  - repeat split.
  - reflexivity.
  - discriminate.
Defined.


Lemma query_failure_report_is_empty_witness :
  main replay install_log canned_list_fails
  = (Halt (FailJson []), canned_list_fails, ["pear list"]).
Proof.
  apply (proj1 (proj2 (proj2
           (query_failure_report_is_empty Canned replay install_log
              canned_list_fails canned_list_fails 2%Z ""
              "pear: cannot open the registry" ltac:(lia)))) "Log").
  - reflexivity.
  - reflexivity.
Defined.

(** On the toy host two real runs in a row end the second time with
    [changed=False], for the package and for the channel, in both
    directions and from every state of the host. *)
Example toy_second_run_unchanged (st : State) (channel_target : bool) (h0 : Toy) :
  let p := if channel_target
           then mkParams st None None (Some "pear.symfony.com") false
           else mkParams st (Some "Log") None None false in
  let h1 := snd (fst (main toy_pear p h0)) in
  exists kw,
    outcome (main toy_pear p h1) = Halt (ExitJson kw) /\
    kwarg "changed" kw = Some (VBool false).
Proof.
  destruct st, channel_target, h0 as [[|] [|]];
    eexists; (split; [vm_compute; reflexivity | reflexivity]).
Qed.

(** ** Rows and listings *)

(** A line without the separator in front of a separator is the first
    piece. *)
Lemma split_line sep l rest :
  has_char sep l = false ->
  split sep (l ++ String sep rest) = l :: split sep rest.
Proof.
  induction l as [|c l IH]; cbn [append split has_char]; intros H.
  - now rewrite Ascii.eqb_refl.
  - apply orb_false_iff in H as [Hc Hl]. rewrite Hc, (IH Hl). reflexivity.
Qed.

Lemma split_unlines lines :
  forallb (fun l => negb (has_char LF l)) lines = true ->
  split LF (unlines lines) = (lines ++ [""])%list.
Proof.
  induction lines as [|l lines IH]; cbn [forallb unlines]; intros H.
  - reflexivity.
  - apply andb_true_iff in H as [Hl Hrest].
    apply negb_true_iff in Hl.
    now rewrite (split_line _ _ _ Hl), (IH Hrest).
Qed.

(** A column is read into the field under construction. *)
Lemma re_split_column budget f r :
  has_space f = false ->
  re_split_from budget false (f ++ r)
  = cons_head f (re_split_from budget false r).
Proof.
  induction f as [|c f IH]; cbn [append has_space]; intros H.
  - pose proof (re_split_from_not_nil budget false r) as Hne.
    destruct (re_split_from budget false r); [contradiction|reflexivity].
  - apply orb_false_iff in H as [Hc Hf]. cbn [re_split_from].
    rewrite Hc, (IH Hf). cbn [andb].
    pose proof (re_split_from_not_nil budget false r) as Hne.
    destruct (re_split_from budget false r); [contradiction|reflexivity].
Qed.

(** Inside a separator the rest of the whitespace is passed over. *)
Lemma re_split_rest_of_gap budget w r :
  all_space w = true ->
  re_split_from budget true (w ++ r) = re_split_from budget true r.
Proof.
  induction w as [|c w IH]; cbn [append all_space]; intros H; [reflexivity|].
  apply andb_true_iff in H as [Hc Hw]. cbn [re_split_from].
  now rewrite Hc, (IH Hw).
Qed.

(** After a separator, a text that does not begin with whitespace is
    read as at the start of a line. *)
Lemma re_split_after_gap budget s :
  starts_clean s = true ->
  re_split_from budget true s = re_split_from budget false s.
Proof.
  destruct s as [|c s]; cbn [starts_clean]; intros H; [reflexivity|].
  apply negb_true_iff in H. cbn [re_split_from]. now rewrite H.
Qed.

(** A gap cuts, as long as a cut is allowed. *)
Lemma re_split_gap budget w r :
  is_gap w = true ->
  budget <> Some 0%nat ->
  starts_clean r = true ->
  re_split_from budget false (w ++ r)
  = "" :: re_split_from (option_map Nat.pred budget) false r.
Proof.
  unfold is_gap. intros H Hb Hr. apply andb_true_iff in H as [Hw Hne].
  destruct w as [|c w]; [discriminate Hne|]. cbn [all_space] in Hw.
  apply andb_true_iff in Hw as [Hc Hw]. cbn [append re_split_from].
  rewrite Hc. cbn [andb].
  rewrite (re_split_rest_of_gap _ _ _ Hw), (re_split_after_gap _ _ Hr).
  destruct budget as [[|n]|]; [contradiction| |]; reflexivity.
Qed.

(** When no cut is left the rest is one field. *)
Lemma re_split_exhausted s : re_split_from (Some 0%nat) false s = [s].
Proof.
  induction s as [|c s IH]; [reflexivity|]. cbn [re_split_from].
  rewrite IH, andb_false_r. reflexivity.
Qed.

Lemma is_field_clean f : is_field f = true -> has_space f = false.
Proof.
  unfold is_field. intros H. apply andb_true_iff in H as [H _].
  now apply negb_true_iff in H.
Qed.

Lemma is_field_starts_clean f r : is_field f = true -> starts_clean (f ++ r) = true.
Proof.
  unfold is_field. intros H. apply andb_true_iff in H as [Hs Hne].
  destruct f as [|c f]; [discriminate Hne|].
  cbn [has_space] in Hs. apply negb_true_iff, orb_false_iff in Hs as [Hc _].
  cbn [append starts_clean]. now rewrite Hc.
Qed.

Lemma re_split_row_fields n w1 v w2 st :
  is_field n = true -> is_gap w1 = true -> is_field v = true ->
  is_gap w2 = true -> is_field st = true ->
  re_split_ws (n ++ w1 ++ v ++ w2 ++ st) 0 = [n; v; st].
Proof.
  intros Hn Hw1 Hv Hw2 Hst. unfold re_split_ws.
  rewrite (re_split_column _ _ _ (is_field_clean _ Hn)).
  rewrite (re_split_gap None w1 _ Hw1 ltac:(discriminate)
             (is_field_starts_clean v _ Hv)).
  cbn [option_map].
  rewrite (re_split_column _ _ _ (is_field_clean _ Hv)).
  assert (Hst' : starts_clean st = true)
    by (rewrite <- (append_empty_r st); now apply is_field_starts_clean).
  rewrite (re_split_gap None w2 _ Hw2 ltac:(discriminate) Hst').
  cbn [option_map].
  rewrite <- (append_empty_r st) at 1.
  rewrite (re_split_column _ _ _ (is_field_clean _ Hst)).
  cbn [re_split_from cons_head]. now rewrite !append_empty_r.
Qed.

Lemma pkg_line_matches_row name version r :
  well_formed_row r = true ->
  unpacks (re_split_ws (render_row r) 0) = true /\
  pkg_line_matches name version (render_row r) = row_matches name version r.
Proof.
  unfold well_formed_row. rewrite !andb_true_iff.
  intros [[[[Hn Hw1] Hv] Hw2] Hst].
  unfold pkg_line_matches, render_row.
  now rewrite (re_split_row_fields _ _ _ _ _ Hn Hw1 Hv Hw2 Hst).
Qed.

Lemma existsb_rows name version rows :
  forallb well_formed_row rows = true ->
  existsb (pkg_line_matches name version) (map render_row rows ++ [""])%list
  = existsb (row_matches name version) rows.
Proof.
  induction rows as [|r rows IH]; cbn [forallb map app existsb]; intros H.
  - reflexivity.
  - apply andb_true_iff in H as [Hr Hrows].
    rewrite (proj2 (pkg_line_matches_row name version r Hr)), (IH Hrows).
    reflexivity.
Qed.

(** X5.  A row of three columns without whitespace, set apart by
    whitespace of any length, unpacks into exactly these columns. *)
Theorem package_row_unpacks (r : PkgRow) :
  well_formed_row r = true ->
  re_split_ws (render_row r) 0 = [row_name r; row_version r; row_status r].
Proof.
  unfold well_formed_row. rewrite !andb_true_iff.
  intros [[[[Hn Hw1] Hv] Hw2] Hst].
  exact (re_split_row_fields _ _ _ _ _ Hn Hw1 Hv Hw2 Hst).
Qed.

Lemma channel_row_fields url w1 alias w2 summary :
  is_field url = true -> is_gap w1 = true ->
  is_field alias = true -> is_gap w2 = true ->
  starts_clean summary = true ->
  re_split_ws (url ++ w1 ++ alias ++ w2 ++ summary) 2 = [url; alias; summary].
Proof.
  intros Hu Hw1 Ha Hw2 Hs. unfold re_split_ws.
  rewrite (re_split_column _ _ _ (is_field_clean _ Hu)).
  rewrite (re_split_gap (Some 2%nat) w1 _ Hw1 ltac:(discriminate)
             (is_field_starts_clean alias _ Ha)).
  cbn [option_map Nat.pred].
  rewrite (re_split_column _ _ _ (is_field_clean _ Ha)).
  rewrite (re_split_gap (Some 1%nat) w2 _ Hw2 ltac:(discriminate) Hs).
  cbn [option_map Nat.pred]. rewrite re_split_exhausted.
  cbn [cons_head]. now rewrite !append_empty_r.
Qed.

(** X6.  A row of [pear list-channels] is cut twice only: the address
    and the alias are the first two fields and everything after the
    second gap, whitespace included, is the third. *)
Theorem channel_row_unpacks (r : ChannelRow) :
  well_formed_channel r = true ->
  re_split_ws (render_channel r) 2 = [ch_url r; ch_alias r; ch_summary r].
Proof.
  unfold well_formed_channel. rewrite !andb_true_iff.
  intros [[[[Hu Hw1] Ha] Hw2] Hs].
  exact (channel_row_fields _ _ _ _ _ Hu Hw1 Ha Hw2 Hs).
Qed.

(** X7.  A channel row that has an address and an alias but nothing
    after them gives two fields: it does not unpack, and it matches no
    channel, not even the one whose address it shows. *)
Theorem channel_row_without_summary (name url w alias : string) :
  is_field url = true -> is_gap w = true -> is_field alias = true ->
  re_split_ws (url ++ w ++ alias) 2 = [url; alias] /\
  channel_line_matches name (url ++ w ++ alias) = false.
Proof.
  intros Hu Hw Ha.
  assert (Ha' : starts_clean alias = true)
    by (rewrite <- (append_empty_r alias); now apply is_field_starts_clean).
  assert (E : re_split_ws (url ++ w ++ alias) 2 = [url; alias]).
  { unfold re_split_ws.
    rewrite (re_split_column _ _ _ (is_field_clean _ Hu)).
    rewrite (re_split_gap (Some 2%nat) w _ Hw ltac:(discriminate) Ha').
    cbn [option_map Nat.pred].
    rewrite <- (append_empty_r alias) at 1.
    rewrite (re_split_column _ _ _ (is_field_clean _ Ha)).
    cbn [re_split_from cons_head]. now rewrite !append_empty_r. }
  split; [exact E|]. unfold channel_line_matches. now rewrite E.
Qed.

Section Listings.

Variable Host : Type.
Variable execute : string -> Host -> (Z * string * string) * Host.

(** X8.  On a listing as the tool prints it -- three header lines, then
    well-formed rows, each line ended by a line feed -- the package query
    answers whether some row has the name and, if a version is asked for,
    that version.  With no row at all after the header it raises: the
    empty piece after the last line feed is then the first line tested. *)
Theorem listing_query_answers_membership
  (name : string) (version : option string) (h h' : Host)
  (h1 h2 h3 err : string) (rows : list PkgRow) :
  forallb (fun l => negb (has_char LF l))
          (h1 :: h2 :: h3 :: map render_row rows) = true ->
  forallb well_formed_row rows = true ->
  execute "pear list" h = ((0%Z, listing h1 h2 h3 rows, err), h') ->
  _is_package_present execute name version h
  = (match rows with
     | [] => Halt (Raised (UnboundLocalError "pkg_name"))
     | _ :: _ => Ret (existsb (row_matches name version) rows)
     end, h', ["pear list"]).
Proof.
  intros Hlf Hwf He.
  rewrite (_is_package_present_run _ execute name version h _ _ _ _ He).
  unfold query_answer, listing. cbn [Z.eqb negb].
  rewrite (split_unlines _ Hlf). cbn [app skipn].
  rewrite for_pkg_unbound.
  destruct rows as [|r rows]; [reflexivity|].
  cbn [map app]. cbn [forallb] in Hwf.
  pose proof Hwf as Hwf'. apply andb_true_iff in Hwf' as [Hr _].
  rewrite (proj1 (pkg_line_matches_row name version r Hr)).
  change (render_row r :: (map render_row rows ++ [""])%list)
    with (map render_row (r :: rows) ++ [""])%list.
  now rewrite (existsb_rows name version (r :: rows) Hwf).
Qed.

End Listings.

Lemma package_row_unpacks_witness :
  re_split_ws (render_row log_row) 0 = ["Log"; "1.12.7"; "stable"].
Proof. apply (package_row_unpacks log_row). reflexivity. Defined.

Lemma channel_row_unpacks_witness :
  re_split_ws (render_channel php_channel) 2
  = ["pear.php.net"; "pear"; "PHP Extension and Application Repository"].
Proof. apply (channel_row_unpacks php_channel). reflexivity. Defined.

Lemma channel_row_without_summary_witness :
  re_split_ws ("__uri" ++ " " ++ "__uri") 2 = ["__uri"; "__uri"] /\
  channel_line_matches "__uri" ("__uri" ++ " " ++ "__uri") = false.
Proof. apply (channel_row_without_summary "__uri"); reflexivity. Defined.

Lemma listing_query_answers_membership_witness :
  _is_package_present replay "Log" (Some "1.12.7") canned_listing
  = (Ret (existsb (row_matches "Log" (Some "1.12.7")) [tar_row; log_row]),
     canned_listing, ["pear list"]).
Proof.
  apply (listing_query_answers_membership Canned replay "Log" (Some "1.12.7")
           canned_listing canned_listing
           "Installed packages, channel pear.php.net:"
           "========================================="
           "Package     Version State" "" [tar_row; log_row]);
    reflexivity.
Defined.

(** ** More on the presence queries *)

Lemma pkg_line_matches_unpacks name version line :
  pkg_line_matches name version line = true ->
  unpacks (re_split_ws line 0) = true.
Proof.
  unfold pkg_line_matches, unpacks.
  destruct (re_split_ws line 0) as [|f1 [|f2 [|f3 [|f4 fs]]]];
    (discriminate || reflexivity).
Qed.

Lemma pkg_line_matches_any_version name v line :
  pkg_line_matches name (Some v) line = true ->
  pkg_line_matches name None line = true.
Proof.
  unfold pkg_line_matches.
  destruct (re_split_ws line 0) as [|f1 [|f2 [|f3 [|f4 fs]]]]; try discriminate.
  cbn [version_matches]. rewrite !andb_true_iff. tauto.
Qed.

Lemma existsb_impl {A} (f g : A -> bool) l :
  (forall x, f x = true -> g x = true) ->
  existsb f l = true -> existsb g l = true.
Proof.
  intros Hfg. rewrite !existsb_exists. intros (x & Hin & Hx). eauto.
Qed.

Lemma existsb_filter {A} (f g : A -> bool) l :
  (forall x, f x = true -> g x = true) ->
  existsb f (filter g l) = existsb f l.
Proof.
  intros Hfg. induction l as [|x l IH]; [reflexivity|]. cbn [filter existsb].
  destruct (g x) eqn:Hg; cbn [existsb]; rewrite IH; [reflexivity|].
  destruct (f x) eqn:Hf; [|reflexivity].
  apply Hfg in Hf. congruence.
Qed.

(** X10.  After a first line that unpacks, lines that do not unpack have
    no part in the answer of the loop: it is the answer on the listing
    with these lines taken out. *)
Theorem later_malformed_lines_are_skipped
  (name : string) (version : option string) (line : string)
  (rest : list string) :
  unpacks (re_split_ws line 0) = true ->
  for_pkg name version None (line :: rest)
  = for_pkg name version None
      (line :: filter (fun l => unpacks (re_split_ws l 0)) rest).
Proof.
  intros Hfirst. rewrite !for_pkg_unbound, Hfirst. f_equal.
  cbn [existsb]. f_equal. symmetry.
  apply existsb_filter. apply pkg_line_matches_unpacks.
Qed.

Section MoreQueries.

Variable Host : Type.
Variable execute : string -> Host -> (Z * string * string) * Host.


(** X12.  A package the query finds in a given version is also found when
    no version is asked for, on the same host and with the same
    listing command. *)
Theorem present_in_version_is_present
  (name v : string) (h h1 : Host) (t : list string) :
  _is_package_present execute name (Some v) h = (Ret true, h1, t) ->
  _is_package_present execute name None h = (Ret true, h1, t).
Proof.
  destruct (execute "pear list" h) as [[[rc out] err] h'] eqn:He.
  rewrite !(_is_package_present_run _ execute name _ h _ _ _ _ He).
  unfold query_answer. destruct (negb (rc =? 0)%Z); [discriminate|].
  rewrite !for_pkg_unbound.
  destruct (skipn 3 (split LF out)) as [|line rest]; [discriminate|].
  destruct (unpacks (re_split_ws line 0)); [|discriminate].
  intros [= Hex <- <-].
  change (existsb (pkg_line_matches name (Some v)) (line :: rest) = true) in Hex.
  apply (existsb_impl _ _ _ (pkg_line_matches_any_version name v)) in Hex.
  repeat f_equal. exact Hex.
Qed.

End MoreQueries.

Lemma later_malformed_lines_are_skipped_witness :
  for_pkg "Log" None None
    ["Archive_Tar 1.3.11 stable"; ""; "Log 1.12.7 stable"; "(end)"]
  = for_pkg "Log" None None
      ("Archive_Tar 1.3.11 stable"
       :: filter (fun l => unpacks (re_split_ws l 0))
            [""; "Log 1.12.7 stable"; "(end)"]).
Proof. apply later_malformed_lines_are_skipped. reflexivity. Defined.


Lemma present_in_version_is_present_witness :
  _is_package_present replay "Log" None canned_listing
  = (Ret true, canned_listing, ["pear list"]).
Proof.
  apply (present_in_version_is_present Canned replay "Log" "1.12.7").
  vm_compute. reflexivity.
Defined.

Lemma _is_package_present_answers_witness :
  _is_package_present toy_pear "Log" None (mkToy true false)
  = (Ret (listed "Log" None (toy_list (mkToy true false))),
     mkToy true false, ["pear list"]).
Proof.
  apply (_is_package_present_answers Toy toy_pear "Log" None
           (mkToy true false) (toy_list (mkToy true false)) "" (mkToy true false));
    reflexivity.
Defined.

Lemma _is_channel_present_answers_witness :
  _is_channel_present toy_pear "pear.symfony.com" (mkToy false true)
  = (Ret (channel_listed "pear.symfony.com"
            (toy_list_channels (mkToy false true))),
     mkToy false true, ["pear list-channels"]).
Proof.
  apply (_is_channel_present_answers Toy toy_pear "pear.symfony.com"
           (mkToy false true) (toy_list_channels (mkToy false true)) ""
           (mkToy false true));
    reflexivity.
Defined.

Lemma _is_package_present_raises_witness :
  _is_package_present replay "Log" None
    [("pear list", (0%Z, blank_first_list, ""))]
  = (Halt (Raised (UnboundLocalError "pkg_name")),
     [("pear list", (0%Z, blank_first_list, ""))], ["pear list"]).
Proof.
  apply (_is_package_present_raises Canned replay "Log" None
           [("pear list", (0%Z, blank_first_list, ""))] blank_first_list ""
           [("pear list", (0%Z, blank_first_list, ""))]
           "" ["Log         1.12.7  stable"; ""]);
    reflexivity.
Defined.

Lemma _is_channel_present_raises_witness :
  _is_channel_present replay "pear.symfony.com"
    [("pear list-channels", (0%Z, blank_first_channels, ""))]
  = (Halt (Raised (UnboundLocalError "channel_url")),
     [("pear list-channels", (0%Z, blank_first_channels, ""))],
     ["pear list-channels"]).
Proof.
  apply (_is_channel_present_raises Canned replay "pear.symfony.com"
           [("pear list-channels", (0%Z, blank_first_channels, ""))]
           blank_first_channels ""
           [("pear list-channels", (0%Z, blank_first_channels, ""))]
           "" ["pear.symfony.com symfony Symfony PEAR channel"; ""]);
    reflexivity.
Defined.

(** ** More on the runs *)

Lemma channel_changed_cases p rc out :
  channel_changed p rc out
  = if channel_noop p rc out then Some (Some false)
    else if channel_done p rc out then Some (Some true)
    else if (rc =? 1)%Z then None
    else Some None.
Proof.
  unfold channel_changed, channel_noop, channel_done.
  destruct (desired p); cbn [negb];
    rewrite ?andb_false_r, ?andb_true_r; cbn [andb]; reflexivity.
Qed.

Section MoreRuns.

Variable Host : Type.
Variable execute : string -> Host -> (Z * string * string) * Host.

(** X13.  With neither a name nor a channel -- each absent or the empty
    string -- the run fails with "not enough parameters" before any
    command is run, in a dry run as in a real one. *)
Theorem no_target_fails_without_command (p : Params) (h : Host) :
  truthy (p_name p) = None -> truthy (p_channel p) = None ->
  main execute p h
  = (Halt (FailJson [("msg", VStr "not enough parameters")]), h, []).
Proof. apply main_no_target. Qed.

(** X14.  A run issues at most two commands, and only in these orders:
    none; the listing of the target alone; the listing of packages and
    then the command of the target; the command of the target alone.  A
    dry run issues at most the listing. *)
Theorem run_issues_at_most_two_commands (p : Params) (h : Host) :
  let t := trace (main execute p h) in
  (t = [] \/ t = ["pear list"] \/ t = ["pear list-channels"] \/
   exists cmd, action_cmd p = Some cmd /\ (t = [cmd] \/ t = ["pear list"; cmd]))
  /\ (check_mode p = true -> (length t <= 1)%nat).
Proof.
  cbv zeta. split.
  - destruct (check_mode p) eqn:Hc.
    + rewrite (main_check_trace _ execute p h Hc). unfold query_trace.
      destruct (truthy (p_name p)); [|destruct (truthy (p_channel p))]; auto.
    + destruct (truthy (p_name p)) as [n|] eqn:Hn;
        [|destruct (truthy (p_channel p)) as [c|] eqn:Hch].
      * rewrite (main_real_package _ execute p n h Hc Hn).
        pose proof (_is_package_present_trace _ execute n (p_version p) h) as Ht.
        destruct (_is_package_present execute n (p_version p) h)
          as [[[b|s] h1] t]; cbn in Ht; subst t; [|auto].
        destruct (Bool.eqb b (desired p)); [auto|].
        cbv zeta. destruct (execute _ h1) as [[[rc out] err] h2].
        right. right. right. eexists. split; [|right; reflexivity].
        unfold action_cmd. now rewrite Hn.
      * rewrite (real_channel_run_acts _ execute p c h Hc Hn Hch).
        right. right. right. eexists. split; [|left; reflexivity].
        unfold action_cmd. now rewrite Hn, Hch.
      * rewrite (main_no_target _ execute p h Hn Hch). auto.
  - intros Hc. rewrite (main_check_trace _ execute p h Hc). unfold query_trace.
    destruct (truthy (p_name p)); [|destruct (truthy (p_channel p))];
      cbn [length]; lia.
Qed.

(** X15.  A run for a package whose query has answered ends with a
    report or with the error report of [_fail]: it never raises. *)
Theorem package_run_never_raises (p : Params) (h : Host) (n : string) (b : bool) :
  truthy (p_name p) = Some n ->
  current_presence execute p h = Some b ->
  exists kw,
    outcome (main execute p h) = Halt (ExitJson kw) \/
    outcome (main execute p h) = Halt (FailJson kw).
Proof.
  intros Hn Hcur.
  destruct (current_presence_package _ execute p n h b Hn Hcur) as [h1 Hq].
  destruct (check_mode p) eqn:Hc.
  - rewrite (main_check_package _ execute p n h Hc Hn), Hq.
    eexists. left. reflexivity.
  - rewrite (main_real_package _ execute p n h Hc Hn), Hq.
    destruct (Bool.eqb b (desired p)); [eexists; left; reflexivity|].
    cbv zeta. destruct (execute _ h1) as [[[rc out] err] h2].
    unfold outcome, package_ending. cbn [fst].
    destruct (negb (rc =? 0)%Z && _); eexists;
      [right; reflexivity | left; reflexivity].
Qed.

(** X16.  For a package the dry run predicts a change exactly if the
    real run on the same host goes on to the command of the target; it
    predicts none exactly if the real run stops after the listing. *)
Theorem dry_run_predicts_package_action
  (p : Params) (h : Host) (n : string) (b : bool) :
  check_mode p = false ->
  truthy (p_name p) = Some n ->
  current_presence execute p h = Some b ->
  let cmd := pear_cmd (package_state_map (p_state p))
                      (_get_full_name n (p_version p)) in
  let changed := negb (Bool.eqb b (desired p)) in
  outcome (main execute (dry p) h)
  = Halt (ExitJson [("changed", VBool changed);
                    ("stdout", VStr ""); ("stderr", VStr "")]) /\
  trace (main execute p h)
  = if changed then ["pear list"; cmd] else ["pear list"].
Proof.
  intros Hc Hn Hcur cmd changed. subst cmd changed.
  destruct (current_presence_package _ execute p n h b Hn Hcur) as [h1 Hq].
  split.
  - rewrite (main_check_package _ execute (dry p) n h eq_refl Hn).
    cbn [dry p_version]. rewrite Hq. unfold outcome, predicted, desired.
    cbn [fst dry p_state]. destruct b, (p_state p); reflexivity.
  - rewrite (main_real_package _ execute p n h Hc Hn), Hq.
    destruct (Bool.eqb b (desired p)); [reflexivity|].
    cbv zeta. destruct (execute _ h1) as [[[rc out] err] h2]. reflexivity.
Qed.

(** X17.  The report of a finished package action carries the command,
    what the command printed on both streams, unchanged, and the
    parameters of the run. *)
Theorem package_report_carries_output
  (p : Params) (h h1 h2 : Host) (n : string) (rc : Z) (out err : string)
  (kw : kwargs) :
  package_action execute p h n rc out err h1 h2 ->
  outcome (main execute p h) = Halt (ExitJson kw) ->
  kwarg "cmd" kw
  = Some (VStr (pear_cmd (package_state_map (p_state p))
                         (_get_full_name n (p_version p)))) /\
  kwarg "stdout" kw = Some (VStr out) /\
  kwarg "stderr" kw = Some (VStr err) /\
  kwarg "name" kw = Some (opt_val (p_name p)) /\
  kwarg "version" kw = Some (opt_val (p_version p)) /\
  kwarg "state" kw = Some (VStr (state_str (p_state p))) /\
  kwarg "channel" kw = Some (opt_val (p_channel p)).
Proof.
  intros Ha. rewrite (package_action_run _ execute _ _ _ _ _ _ _ _ Ha).
  unfold outcome, package_ending. cbn [fst].
  destruct (negb (rc =? 0)%Z && _); [discriminate|].
  intros [= <-]. repeat split.
Qed.

(** X18.  A channel action ends with a report exactly on the four
    recognised answers, and then [changed] tells whether the return code
    was 0; the report carries the command and both streams unchanged. *)
Theorem channel_report_iff_recognised
  (p : Params) (h h2 : Host) (c : string) (rc : Z) (out err : string) :
  channel_action execute p h c rc out err h2 ->
  let cmd := pear_cmd (channel_state_map (p_state p)) c in
  ((exists kw, outcome (main execute p h) = Halt (ExitJson kw))
   <-> channel_noop p rc out = true \/ channel_done p rc out = true) /\
  (forall kw,
      outcome (main execute p h) = Halt (ExitJson kw) ->
      kw = final_report p cmd (rc =? 0)%Z out err).
Proof.
  intros Ha cmd. rewrite (channel_action_run _ execute _ _ _ _ _ _ _ Ha).
  fold cmd. unfold outcome, channel_ending. cbn [fst].
  rewrite channel_changed_cases.
  destruct (channel_noop p rc out) eqn:Hn.
  - assert (E : (rc =? 0)%Z = false).
    { unfold channel_noop in Hn. apply andb_true_iff in Hn as [Hn _].
      apply Z.eqb_eq in Hn. now subst rc. }
    rewrite E. split; [split; eauto|]. now intros kw [= <-].
  - destruct (channel_done p rc out) eqn:Hd.
    + assert (E : (rc =? 0)%Z = true).
      { unfold channel_done in Hd. now apply andb_true_iff in Hd as [Hd _]. }
      rewrite E. split; [split; eauto|]. now intros kw [= <-].
    + destruct (rc =? 1)%Z.
      * split; [split; [intros [kw H]; discriminate H | intros [H|H]; discriminate H]|].
        intros kw H; discriminate H.
      * split; [split; [intros [kw H]; discriminate H | intros [H|H]; discriminate H]|].
        intros kw H; discriminate H.
Qed.

(** X19.  A channel action ends with the error report of [_fail] exactly
    if the return code is 1 and the answer is not one of the two taken
    for "nothing to do"; the message then ends with the return code. *)
Theorem channel_failure_iff_code_one
  (p : Params) (h h2 : Host) (c : string) (rc : Z) (out err : string) :
  channel_action execute p h c rc out err h2 ->
  let cmd := pear_cmd (channel_state_map (p_state p)) c in
  ((exists kw, outcome (main execute p h) = Halt (FailJson kw))
   <-> rc = 1%Z /\ channel_noop p rc out = false) /\
  (forall kw,
      outcome (main execute p h) = Halt (FailJson kw) ->
      kw = [("cmd", VStr cmd); ("msg", VStr (_fail_msg out err (Some 1%Z)))]).
Proof.
  intros Ha cmd. rewrite (channel_action_run _ execute _ _ _ _ _ _ _ Ha).
  fold cmd. unfold outcome, channel_ending. cbn [fst].
  rewrite channel_changed_cases.
  destruct (channel_noop p rc out) eqn:Hn.
  - split; [split; [intros [kw H]; discriminate H | intros [_ H]; discriminate H]|].
    intros kw H; discriminate H.
  - destruct (channel_done p rc out) eqn:Hd.
    + assert (E : rc = 0%Z).
      { unfold channel_done in Hd. apply andb_true_iff in Hd as [Hd _].
        now apply Z.eqb_eq in Hd. }
      subst rc.
      split; [split; [intros [kw H]; discriminate H | intros [H _]; discriminate H]|].
      intros kw H; discriminate H.
    + destruct (rc =? 1)%Z eqn:E1.
      * apply Z.eqb_eq in E1. subst rc.
        split; [split; [auto | eauto]|]. now intros kw [= <-].
      * apply Z.eqb_neq in E1.
        split; [split; [intros [kw H]; discriminate H | intros [H _]; contradiction]|].
        intros kw H; discriminate H.
Qed.

(** X20.  A channel action raises [UnboundLocalError] for [changed]
    exactly if the return code is not 1 and the answer is not one of the
    two taken for "done": so for every return code other than 0 and 1,
    whatever the command printed, and without any report. *)
Theorem channel_run_raises_iff
  (p : Params) (h h2 : Host) (c : string) (rc : Z) (out err : string) :
  channel_action execute p h c rc out err h2 ->
  (outcome (main execute p h) = Halt (Raised (UnboundLocalError "changed"))
   <-> rc <> 1%Z /\ channel_done p rc out = false) /\
  (rc <> 0%Z -> rc <> 1%Z ->
   outcome (main execute p h) = Halt (Raised (UnboundLocalError "changed"))).
Proof.
  intros Ha. rewrite (channel_action_run _ execute _ _ _ _ _ _ _ Ha).
  unfold outcome, channel_ending. cbn [fst].
  rewrite channel_changed_cases.
  destruct (channel_noop p rc out) eqn:Hn.
  - assert (E : rc = 1%Z).
    { unfold channel_noop in Hn. apply andb_true_iff in Hn as [Hn _].
      now apply Z.eqb_eq in Hn. }
    split; [split; [discriminate | intros [H _]; contradiction]|].
    intros _ H; contradiction.
  - destruct (channel_done p rc out) eqn:Hd.
    + assert (E : rc = 0%Z).
      { unfold channel_done in Hd. apply andb_true_iff in Hd as [Hd _].
        now apply Z.eqb_eq in Hd. }
      split; [split; [discriminate | intros [_ H]; discriminate H]|].
      intros H; contradiction.
    + destruct (rc =? 1)%Z eqn:E1.
      * apply Z.eqb_eq in E1.
        split; [split; [discriminate | intros [H _]; contradiction]|].
        intros _ H; contradiction.
      * apply Z.eqb_neq in E1. split; [split; auto|]. reflexivity.
Qed.

End MoreRuns.

(** X21.  The message of [_fail] begins with "stdout: " and the standard
    output as it came, if there is any; it holds ":stderr: " and the
    standard error as it came, if there is any; and it is empty exactly
    if both streams are empty and no return code, or the code 0, is
    given. *)
Theorem fail_message_parts (out err : string) (rc : option Z) :
  (out <> "" -> prefix ("stdout: " ++ out) (_fail_msg out err rc) = true) /\
  (err <> "" ->
   contains (String LF ":stderr: " ++ err) (_fail_msg out err rc) = true) /\
  (_fail_msg out err rc = ""
   <-> out = "" /\ err = "" /\ (rc = None \/ rc = Some 0%Z)).
Proof.
  unfold _fail_msg. cbn [append].
  set (tail := match rc with
               | Some r => if (r =? 0)%Z then ""
                           else String LF "rc: " ++ str_of_int r
               | None => ""
               end).
  assert (Hmsg : forall m,
             match rc with
             | Some r => if (r =? 0)%Z then m
                         else m ++ String LF "rc: " ++ str_of_int r
             | None => m
             end = m ++ tail).
  { intros m. subst tail. destruct rc as [r|];
      [destruct (r =? 0)%Z|]; now rewrite ?append_empty_r. }
  rewrite Hmsg.
  assert (Htail : tail = "" <-> rc = None \/ rc = Some 0%Z).
  { subst tail. destruct rc as [r|].
    - destruct (r =? 0)%Z eqn:E.
      + apply Z.eqb_eq in E. subst r. tauto.
      + apply Z.eqb_neq in E. cbn [append].
        split; [discriminate|]. intros [H|[= H]]; [discriminate H|contradiction].
    - tauto. }
  destruct (String.eqb_spec out "") as [->|Eo];
    destruct (String.eqb_spec err "") as [->|Ee].
  - split; [intros H; contradiction|]. split; [intros H; contradiction|].
    cbn [append]. rewrite Htail. tauto.
  - split; [intros H; contradiction|]. split.
    + intros _. apply contains_substring. exists "", tail.
      cbn [append]. rewrite ?append_assoc. reflexivity.
    + cbn [append]. split; [discriminate|]. intros (_ & H & _). contradiction.
  - split.
    + intros _. apply prefix_app. exists tail.
      cbn [append]. rewrite ?append_assoc. reflexivity.
    + split; [intros H; contradiction|].
      cbn [append]. split; [discriminate|]. intros (H & _). contradiction.
  - split.
    + intros _. apply prefix_app. exists (String LF ":stderr: " ++ err ++ tail).
      cbn [append]. rewrite ?append_assoc. reflexivity.
    + split.
      * intros _. apply contains_substring. exists ("stdout: " ++ out), tail.
        cbn [append]. rewrite ?append_assoc. reflexivity.
      * cbn [append]. split; [discriminate|]. intros (H & _). contradiction.
Qed.

(** *** Instances *)

Lemma fail_message_parts_witness :
  prefix ("stdout: " ++ no_release_out)
         (_fail_msg no_release_out "install failed" None) = true.
Proof.
  apply (proj1 (fail_message_parts no_release_out "install failed" None)).
  discriminate.
Defined.

Lemma no_target_fails_without_command_witness :
  main replay no_target canned_list_fails
  = (Halt (FailJson [("msg", VStr "not enough parameters")]),
     canned_list_fails, []).
Proof.
  apply (no_target_fails_without_command Canned replay no_target
           canned_list_fails); reflexivity.
Defined.

Lemma run_issues_at_most_two_commands_witness :
  (length (trace (main toy_pear (dry install_log) (mkToy false false))) <= 1)%nat.
Proof.
  apply (proj2 (run_issues_at_most_two_commands Toy toy_pear (dry install_log)
                  (mkToy false false))).
  reflexivity.
Defined.

Lemma package_run_never_raises_witness :
  exists kw,
    outcome (main replay install_log canned_install_fails) = Halt (ExitJson kw) \/
    outcome (main replay install_log canned_install_fails) = Halt (FailJson kw).
Proof.
  apply (package_run_never_raises Canned replay install_log
           canned_install_fails "Log" false); reflexivity.
Defined.

Lemma dry_run_predicts_package_action_witness :
  outcome (main toy_pear (dry install_log) (mkToy false false))
  = Halt (ExitJson [("changed", VBool (negb (Bool.eqb false (desired install_log))));
                    ("stdout", VStr ""); ("stderr", VStr "")]) /\
  trace (main toy_pear install_log (mkToy false false))
  = if negb (Bool.eqb false (desired install_log))
    then ["pear list"; pear_cmd (package_state_map (p_state install_log))
                                (_get_full_name "Log" (p_version install_log))]
    else ["pear list"].
Proof.
  apply (dry_run_predicts_package_action Toy toy_pear install_log
           (mkToy false false) "Log" false); reflexivity.
Defined.

Lemma package_report_carries_output_witness :
  kwarg "cmd" (final_report install_log "pear install Log" true install_ok_out "")
  = Some (VStr (pear_cmd (package_state_map (p_state install_log))
                         (_get_full_name "Log" (p_version install_log)))) /\
  kwarg "stdout" (final_report install_log "pear install Log" true install_ok_out "")
  = Some (VStr install_ok_out) /\
  kwarg "stderr" (final_report install_log "pear install Log" true install_ok_out "")
  = Some (VStr "") /\
  kwarg "name" (final_report install_log "pear install Log" true install_ok_out "")
  = Some (opt_val (p_name install_log)) /\
  kwarg "version" (final_report install_log "pear install Log" true install_ok_out "")
  = Some (opt_val (p_version install_log)) /\
  kwarg "state" (final_report install_log "pear install Log" true install_ok_out "")
  = Some (VStr (state_str (p_state install_log))) /\
  kwarg "channel" (final_report install_log "pear install Log" true install_ok_out "")
  = Some (opt_val (p_channel install_log)).
Proof.
  apply (package_report_carries_output Canned replay install_log
           canned_install_ok canned_install_ok canned_install_ok
           "Log" 0%Z install_ok_out "").
  - repeat split.
  - vm_compute. reflexivity.
Defined.

Lemma channel_report_iff_recognised_witness :
  (exists kw,
      outcome (main replay discover_symfony canned_discover_ok)
      = Halt (ExitJson kw))
  <-> channel_noop discover_symfony 0%Z
        "Discovery of channel pear.symfony.com succeeded" = true \/
      channel_done discover_symfony 0%Z
        "Discovery of channel pear.symfony.com succeeded" = true.
Proof.
  apply (proj1 (channel_report_iff_recognised Canned replay discover_symfony
                  canned_discover_ok canned_discover_ok "pear.symfony.com"
                  0%Z "Discovery of channel pear.symfony.com succeeded" ""
                  ltac:(repeat split))).
Defined.

Lemma channel_failure_iff_code_one_witness :
  (exists kw,
      outcome (main replay discover_symfony canned_discover_fails)
      = Halt (FailJson kw))
  <-> 1%Z = 1%Z /\ channel_noop discover_symfony 1%Z discovery_failed_out = false.
Proof.
  apply (proj1 (channel_failure_iff_code_one Canned replay discover_symfony
                  canned_discover_fails canned_discover_fails "pear.symfony.com"
                  1%Z discovery_failed_out "" ltac:(repeat split))).
Defined.

Lemma channel_run_raises_iff_witness :
  outcome (main replay discover_symfony canned_discover_crashes)
  = Halt (Raised (UnboundLocalError "changed")).
Proof.
  apply (proj2 (channel_run_raises_iff Canned replay discover_symfony
                  canned_discover_crashes canned_discover_crashes
                  "pear.symfony.com" 255%Z "PHP Fatal error" ""
                  ltac:(repeat split))); lia.
Defined.

(** ** The table of channels *)

Lemma channel_line_matches_row name r :
  well_formed_channel r = true ->
  unpacks (re_split_ws (render_channel r) 2) = true /\
  channel_line_matches name (render_channel r) = String.eqb (ch_url r) name.
Proof.
  unfold well_formed_channel. rewrite !andb_true_iff.
  intros [[[[Hu Hw1] Ha] Hw2] Hs].
  unfold channel_line_matches, render_channel.
  now rewrite (channel_row_fields _ _ _ _ _ Hu Hw1 Ha Hw2 Hs).
Qed.

Lemma existsb_channels name rows :
  forallb well_formed_channel rows = true ->
  existsb (channel_line_matches name) (map render_channel rows ++ [""])%list
  = existsb (fun r => String.eqb (ch_url r) name) rows.
Proof.
  induction rows as [|r rows IH]; cbn [forallb map app existsb]; intros H.
  - reflexivity.
  - apply andb_true_iff in H as [Hr Hrows].
    rewrite (proj2 (channel_line_matches_row name r Hr)), (IH Hrows).
    reflexivity.
Qed.

Section Channels.

Variable Host : Type.
Variable execute : string -> Host -> (Z * string * string) * Host.

(** X9.  On a table of channels as the tool prints it -- three header
    lines, then rows of address, alias and summary, each line ended by a
    line feed -- the channel query answers whether some row has the
    address asked for; whitespace inside a summary does no harm.  With
    no row after the header it raises. *)
Theorem channel_table_query_answers_membership
  (name : string) (h h' : Host) (h1 h2 h3 err : string)
  (rows : list ChannelRow) :
  forallb (fun l => negb (has_char LF l))
          (h1 :: h2 :: h3 :: map render_channel rows) = true ->
  forallb well_formed_channel rows = true ->
  execute "pear list-channels" h
  = ((0%Z, channel_table h1 h2 h3 rows, err), h') ->
  _is_channel_present execute name h
  = (match rows with
     | [] => Halt (Raised (UnboundLocalError "channel_url"))
     | _ :: _ => Ret (existsb (fun r => String.eqb (ch_url r) name) rows)
     end, h', ["pear list-channels"]).
Proof.
  intros Hlf Hwf He.
  rewrite (_is_channel_present_run _ execute name h _ _ _ _ He).
  unfold query_answer, channel_table. cbn [Z.eqb negb].
  rewrite (split_unlines _ Hlf). cbn [app skipn].
  rewrite for_channel_unbound.
  destruct rows as [|r rows]; [reflexivity|].
  cbn [map app]. cbn [forallb] in Hwf.
  pose proof Hwf as Hwf'. apply andb_true_iff in Hwf' as [Hr _].
  rewrite (proj1 (channel_line_matches_row name r Hr)).
  change (render_channel r :: (map render_channel rows ++ [""])%list)
    with (map render_channel (r :: rows) ++ [""])%list.
  now rewrite (existsb_channels name (r :: rows) Hwf).
Qed.

End Channels.

Lemma channel_table_query_answers_membership_witness :
  _is_channel_present replay "pear.symfony.com" canned_channels
  = (Ret (existsb (fun r => String.eqb (ch_url r) "pear.symfony.com")
            [php_channel; symfony_channel]),
     canned_channels, ["pear list-channels"]).
Proof.
  apply (channel_table_query_answers_membership Canned replay
           "pear.symfony.com" canned_channels canned_channels
           "Registered Channels:" "===================="
           "Channel          Alias   Summary" ""
           [php_channel; symfony_channel]);
    reflexivity.
Defined.
